(** * Wildfire dashboard: the feature-preparation pipeline

    A shallow embedding of [clean_and_prepare_data] and of the map
    sampling step of [show_advanced_spatial_analysis]
    (src/advanced_wildfire_analysis.py), with the properties the
    specification states about them.

    A data frame is a list of column names and a list of rows; a row is a
    finite map from column names to cells.  The numeric cells are IEEE
    doubles.  The pipeline never does arithmetic on them: it only
    compares them with integer bin edges, tests them for NaN and truncates
    them to integers, so a finite double is represented by the rational
    number it denotes. *)

From Stdlib Require Import ZArith QArith Qround Lqa String Ascii List.
From stdpp Require Import gmap strings list fin_maps pretty sorting.

Local Open Scope string_scope.

(** ** Cells *)

(** A double: a finite value, one of the two infinities, or NaN. *)
Inductive float64 : Type :=
| Fin (q : Q)
| PInf
| NInf
| NaN.

(** What a cell of the frame can hold: Python's [None], a number, a string,
    or the point geometry of the record. *)
Inductive value : Type :=
| VNone
| VNum (x : float64)
| VStr (s : string)
| VPoint (lon lat : Q).

#[global] Instance value_inhabited : Inhabited value := populate VNone.

(** [Series.isna] / [notna], one cell at a time. *)
Definition isna (v : value) : bool :=
  match v with
  | VNone | VNum NaN => true
  | _ => false
  end.

Definition notna (v : value) : bool := negb (isna v).

Definition is_finite (x : float64) : bool :=
  match x with Fin _ => true | _ => false end.

(** ** [pd.cut] with explicit bin edges *)

Module Cut.

(** The order [searchsorted] uses on doubles: the usual one, with NaN
    after everything else. *)
Definition lt (a b : float64) : bool :=
  match a, b with
  | NaN, _ => false
  | _, NaN => true
  | _, NInf => false
  | NInf, _ => true
  | PInf, _ => false
  | _, PInf => true
  | Fin p, Fin q => if Qlt_le_dec p q then true else false
  end.

(** [bins.searchsorted(x, side='left')] on sorted [bins]: the number of
    edges strictly below [x]. *)
Fixpoint searchsorted_left (bins : list float64) (x : float64) : nat :=
  match bins with
  | [] => 0
  | b :: rest => if lt b x then S (searchsorted_left rest x) else 0
  end.

(** [pd.cut(x, bins, labels=labels)] with the defaults [right=True],
    [include_lowest=False]: the cell is missing when [x] is NaN or falls
    outside [(bins[0], bins[-1]]], and is [labels[ids - 1]] otherwise. *)
Definition cut (bins : list float64) (labels : list string) (x : float64) : value :=
  let ids := searchsorted_left bins x in
  if (match x with NaN => true | _ => false end)
     || (ids =? length bins)%nat || (ids =? 0)%nat
  then VNum NaN
  else match labels !! (ids - 1)%nat with
       | Some l => VStr l
       | None => VNum NaN
       end.

End Cut.

(** The edges and labels [clean_and_prepare_data] passes to [pd.cut]. *)
Definition size_bins : list float64 :=
  [Fin 0; Fin 10; Fin 100; Fin 1000; Fin 10000; PInf].

Definition Small : string := "Small (<10)".
Definition Medium : string := "Medium (10-100)".
Definition Large : string := "Large (100-1000)".
Definition VeryLarge : string := "Very Large (1000-10000)".
Definition Mega : string := "Mega (>10000)".

Definition size_labels : list string := [Small; Medium; Large; VeryLarge; Mega].

Definition fire_size_category (total_acres : float64) : value :=
  Cut.cut size_bins size_labels total_acres.

(** ** The cause lookup table *)

Definition cause_mapping : gmap string string :=
  list_to_map
    [ ("Lightning", "Natural");
      ("Equipment Use", "Human");
      ("Smoking", "Human");
      ("Campfire", "Human");
      ("Debris Burning", "Human");
      ("Railroad", "Human");
      ("Arson", "Human");
      ("Children", "Human");
      ("Miscellaneous", "Other");
      ("Fireworks", "Human");
      ("Powerline", "Human");
      ("Unknown", "Unknown") ].

(** [lambda x: cause_mapping.get(x, 'Other')]: only a string can be a key
    of the table. *)
Definition cause_category (x : value) : value :=
  match x with
  | VStr s => VStr (default "Other" (cause_mapping !! s))
  | _ => VStr "Other"
  end.

(** The table as the specification words it, for comparison with
    [cause_category]: an exact, case-sensitive match on the cause. *)
Definition human_causes : list string :=
  [ "Equipment Use"; "Smoking"; "Campfire"; "Debris Burning"; "Railroad";
    "Arson"; "Children"; "Fireworks"; "Powerline" ].

Definition cause_category_spec (cause : value) : string :=
  match cause with
  | VStr s =>
      if bool_decide (s = "Lightning") then "Natural"
      else if bool_decide (s ∈ human_causes) then "Human"
      else if bool_decide (s = "Miscellaneous") then "Other"
      else if bool_decide (s = "Unknown") then "Unknown"
      else "Other"
  | _ => "Other"
  end.

(** ** Data frames *)

Record DataFrame : Type := mkDataFrame {
  columns : list string;
  rows : list (gmap string value)
}.

(** [df[c]] read in one row. *)
Definition cell (c : string) (r : gmap string value) : value := r !!! c.

(** ['c' in df.columns] *)
Definition has_column (c : string) (df : DataFrame) : bool :=
  bool_decide (c ∈ columns df).

(** [df[c] = f(df)]: the column is overwritten when it exists and appended
    otherwise; every row gets its new cell. *)
Definition assign (c : string) (f : gmap string value → value) (df : DataFrame)
  : DataFrame :=
  {| columns := if has_column c df then columns df else columns df ++ [c];
     rows := (λ r, <[c := f r]> r) <$> rows df |}.

(** [df[mask]]: the rows where the mask holds, in their order. *)
Definition select (mask : gmap string value → bool) (df : DataFrame) : DataFrame :=
  {| columns := columns df; rows := List.filter mask (rows df) |}.

(** What a call does: it returns a value or raises. *)
Inductive outcome (A : Type) : Type :=
| Returns (a : A)
| Raises (exn : string).
Arguments Returns {A} a.
Arguments Raises {A} exn.

(** ** Column operations of the pipeline *)

(** [.fillna(0)] on a numeric cell. *)
Definition fillna_zero (x : float64) : float64 :=
  match x with NaN => Fin 0 | _ => x end.

(** [.fillna('Unknown')] *)
Definition fillna_unknown (v : value) : value :=
  if isna v then VStr "Unknown" else v.

Definition int64_min : Z := - 2 ^ 63.
Definition int64_max : Z := 2 ^ 63 - 1.

(** Rounding toward zero. *)
Definition Qtruncate (q : Q) : Z := Z.quot (Qnum q) (Zpos (Qden q)).

(** The double-to-int64 conversion of [.astype(int)] on one finite cell:
    truncation toward zero, and the machine's out-of-range result
    (the smallest int64) when the truncated value does not fit. *)
Definition trunc_int64 (q : Q) : Z :=
  let z := Qtruncate q in
  if (int64_min <=? z)%Z && (z <=? int64_max)%Z then z else int64_min.

(** [.astype(int)] on a numeric column: it raises when a cell is not
    finite, and converts every cell otherwise. *)
Definition astype_int_cell (x : float64) : option Z :=
  match x with
  | Fin q => Some (trunc_int64 q)
  | _ => None
  end.

Definition num_of (v : value) : float64 :=
  match v with VNum x => x | _ => NaN end.

Fixpoint astype_int (c : string) (rs : list (gmap string value))
  : option (list (gmap string value)) :=
  match rs with
  | [] => Some []
  | r :: rest =>
      match astype_int_cell (num_of (cell c r)), astype_int c rest with
      | Some z, Some rest' => Some (<[c := VNum (Fin (inject_Z z))]> r :: rest')
      | _, _ => None
      end
  end.

Section Pipeline.

(** The library's conversion of a string to a double, [None] when the
    string is not a number. *)
Variable str_to_float : string → option float64.

(** [pd.to_numeric(..., errors='coerce')], one cell at a time. *)
Definition to_numeric (v : value) : float64 :=
  match v with
  | VNum x => x
  | VStr s => default NaN (str_to_float s)
  | VNone | VPoint _ _ => NaN
  end.

(** The right-hand sides of the column assignments, read in one row. *)
Definition acres_cell (r : gmap string value) : value :=
  VNum (fillna_zero (to_numeric (cell "TOTALACRES" r))).

Definition year_cell (r : gmap string value) : value :=
  VNum (to_numeric (cell "FIREYEAR" r)).

Definition cause_cell (r : gmap string value) : value :=
  fillna_unknown (cell "STATCAUSE" r).

Definition category_cell (r : gmap string value) : value :=
  cause_category (cell "STATCAUSE" r).

Definition size_cell (r : gmap string value) : value :=
  fire_size_category (num_of (cell "TOTALACRES" r)).

Definition prepare_TOTALACRES (df : DataFrame) : DataFrame :=
  if has_column "TOTALACRES" df
  then assign "TOTALACRES" acres_cell df
  else df.

Definition prepare_FIREYEAR (df : DataFrame) : outcome DataFrame :=
  if has_column "FIREYEAR" df
  then
    let df1 := assign "FIREYEAR" year_cell df in
    let df2 := select (λ r, notna (cell "FIREYEAR" r)) df1 in
    match astype_int "FIREYEAR" (rows df2) with
    | Some rs => Returns {| columns := columns df2; rows := rs |}
    | None => Raises "IntCastingNaNError"
    end
  else Returns df.

Definition prepare_STATCAUSE (df : DataFrame) : DataFrame :=
  if has_column "STATCAUSE" df
  then assign "CAUSE_CATEGORY" category_cell (assign "STATCAUSE" cause_cell df)
  else df.

Definition add_FIRE_SIZE_CATEGORY (df : DataFrame) : DataFrame :=
  if has_column "TOTALACRES" df
  then assign "FIRE_SIZE_CATEGORY" size_cell df
  else df.

Definition clean_and_prepare_data (gdf : option DataFrame)
  : outcome (option DataFrame) :=
  match gdf with
  | None => Returns None
  | Some df =>
      match prepare_FIREYEAR (prepare_TOTALACRES df) with
      | Raises e => Raises e
      | Returns df' =>
          Returns (Some (add_FIRE_SIZE_CATEGORY (prepare_STATCAUSE df')))
      end
  end.

(** *** The pipeline seen one row at a time *)

(** The year column of a row once coerced. *)
Definition year_of (r : gmap string value) : float64 :=
  to_numeric (cell "FIREYEAR" r).

(** The rows [df[df['FIREYEAR'].notna()]] keeps. *)
Definition kept (df : DataFrame) (r : gmap string value) : bool :=
  if has_column "FIREYEAR" df then notna (VNum (year_of r)) else true.

(** The frames on which [.astype(int)] does not raise: no kept year is
    infinite. *)
Definition castable (df : DataFrame) : bool :=
  negb (has_column "FIREYEAR" df)
  || forallb (λ r, is_finite (year_of r)) (List.filter (kept df) (rows df)).

Definition year_int (r : gmap string value) : Z :=
  default int64_min (astype_int_cell (year_of r)).

(** What each of the four steps makes of one kept row; [present] tells
    whether the column the step is guarded by is in the frame. *)
Definition row_acres (present : bool) (r : gmap string value) : gmap string value :=
  if present then <["TOTALACRES" := acres_cell r]> r else r.

Definition row_year (present : bool) (r : gmap string value) : gmap string value :=
  if present then <["FIREYEAR" := VNum (Fin (inject_Z (year_int r)))]> r else r.

Definition row_cause (present : bool) (r : gmap string value) : gmap string value :=
  if present
  then let r' := <["STATCAUSE" := cause_cell r]> r in
       <["CAUSE_CATEGORY" := category_cell r']> r'
  else r.

Definition row_size (present : bool) (r : gmap string value) : gmap string value :=
  if present then <["FIRE_SIZE_CATEGORY" := size_cell r]> r else r.

Definition row_out (df : DataFrame) (r : gmap string value) : gmap string value :=
  row_size (has_column "TOTALACRES" df)
    (row_cause (has_column "STATCAUSE" df)
       (row_year (has_column "FIREYEAR" df)
          (row_acres (has_column "TOTALACRES" df) r))).

(** The columns of the result: the derived columns are appended when
    they are new. *)
Definition add_column (c : string) (cs : list string) : list string :=
  if bool_decide (c ∈ cs) then cs else cs ++ [c].

Definition columns_out (df : DataFrame) : list string :=
  let cs := if has_column "STATCAUSE" df
            then add_column "CAUSE_CATEGORY" (columns df) else columns df in
  if has_column "TOTALACRES" df then add_column "FIRE_SIZE_CATEGORY" cs else cs.

End Pipeline.

(** ** The map's sampling step *)

Section Sampling.

(** The generator state, [np.random.RandomState(seed)], and
    [rs.choice(len, size=n, replace=False)], which returns the chosen
    positions and the generator's next state. *)
Variable rng : Type.
Variable RandomState : Z → rng.
Variable choice : rng → nat → nat → list nat * rng.

(** [df.take(locs)]: a position outside the frame raises. *)
Definition take_rows (locs : list nat) (df : DataFrame) : outcome DataFrame :=
  match mapM (λ i, rows df !! i) locs with
  | Some rs => Returns {| columns := columns df; rows := rs |}
  | None => Raises "IndexError"
  end.

(** [df.sample(n=n, random_state=random_state)]: an integer
    [random_state] seeds a generator of its own; without one the
    process-wide generator [global] is used and advanced. *)
Definition sample (n : nat) (random_state : option Z) (global : rng)
    (df : DataFrame) : outcome DataFrame * rng :=
  match random_state with
  | Some seed =>
      (take_rows (choice (RandomState seed) (length (rows df)) n).1 df, global)
  | None =>
      let '(locs, global') := choice global (length (rows df)) n in
      (take_rows locs df, global')
  end.

(** Lines 356-358 of [show_advanced_spatial_analysis]. *)
Definition sample_for_map (sample_size : nat) (global : rng)
    (filtered_df : DataFrame) : outcome DataFrame * rng :=
  if (sample_size <? length (rows filtered_df))%nat
  then sample sample_size (Some 42%Z) global filtered_df
  else (Returns filtered_df, global).

End Sampling.

(** ** A reader of decimal literals

    The concrete instance of the string-to-double conversion used in the
    worked examples: optional surrounding blanks, an optional sign, then
    either [inf], [infinity] or [nan] in any letter case, or decimal digits
    with an optional fraction and an optional exponent.  It returns the
    value the literal denotes. *)

Module Reader.

Definition is_space (c : ascii) : bool :=
  let n := nat_of_ascii c in
  (n =? 32)%nat || ((9 <=? n)%nat && (n <=? 13)%nat).

Definition is_digit (c : ascii) : bool :=
  let n := nat_of_ascii c in (48 <=? n)%nat && (n <=? 57)%nat.

Definition digit (c : ascii) : Z := Z.of_nat (nat_of_ascii c) - 48.

Definition lower (c : ascii) : ascii :=
  let n := nat_of_ascii c in
  if (65 <=? n)%nat && (n <=? 90)%nat then ascii_of_nat (n + 32) else c.

Fixpoint lstrip (s : string) : string :=
  match s with
  | String c r => if is_space c then lstrip r else s
  | EmptyString => s
  end.

Definition strip (s : string) : string :=
  String.rev (lstrip (String.rev (lstrip s))).

Fixpoint map_string (f : ascii → ascii) (s : string) : string :=
  match s with
  | String c r => String (f c) (map_string f r)
  | EmptyString => EmptyString
  end.

(** The leading digits of [s], accumulated on [acc]; how many there
    were; and the rest of the string. *)
Fixpoint digits (s : string) (acc : Z) (n : nat) : Z * nat * string :=
  match s with
  | String c r =>
      if is_digit c then digits r (10 * acc + digit c)%Z (S n) else (acc, n, s)
  | EmptyString => (acc, n, s)
  end.

Definition sign (s : string) : bool * string :=
  match s with
  | String "-" r => (true, r)
  | String "+" r => (false, r)
  | _ => (false, s)
  end.

(** The exponent part: nothing, or [e] or [E], an optional sign and at
    least one digit, up to the end of the string. *)
Definition exponent (s : string) : option Z :=
  match s with
  | EmptyString => Some 0%Z
  | String c r =>
      if Ascii.eqb (lower c) "e" then
        let '(neg, r1) := sign r in
        match digits r1 0 0 with
        | (e, S _, EmptyString) => Some (if neg then - e else e)%Z
        | _ => None
        end
      else None
  end.

(** [m * 10 ^ k] *)
Definition scale (m k : Z) : Q :=
  if (0 <=? k)%Z then inject_Z (m * 10 ^ k)
  else Qred (Qmake m (Z.to_pos (10 ^ (- k)))).

Definition number (s : string) : option Q :=
  let '(i, ni, s1) := digits s 0 0 in
  let '(m, nf, s2) :=
    match s1 with
    | String "." r => digits r i 0
    | _ => (i, 0%nat, s1)
    end in
  if (ni + nf =? 0)%nat then None
  else (λ e, scale m (e - Z.of_nat nf)) <$> exponent s2.

Definition str_to_float (s : string) : option float64 :=
  let '(neg, body) := sign (strip s) in
  let word := map_string lower body in
  if bool_decide (word = "inf") || bool_decide (word = "infinity")
  then Some (if neg then NInf else PInf)
  else if bool_decide (word = "nan") then Some NaN
  else (λ q, Fin (if neg then Qred (- q) else q)) <$> number body.

End Reader.

(** ** Example frames *)

(** A frame of one record with the three source columns. *)
Definition frame3 (acres year cause : value) : DataFrame :=
  {| columns := ["TOTALACRES"; "STATCAUSE"; "FIREYEAR"];
     rows := [ {[ "TOTALACRES" := acres; "STATCAUSE" := cause; "FIREYEAR" := year ]} ] |}.

Definition prepared_columns : list string :=
  ["TOTALACRES"; "STATCAUSE"; "FIREYEAR"; "CAUSE_CATEGORY"; "FIRE_SIZE_CATEGORY"].

(** The two records of the specification's end-to-end example, and the
    frame the pipeline makes of them. *)
Definition spec_row1 : gmap string value :=
  {[ "TOTALACRES" := VStr "12.5"; "STATCAUSE" := VStr "Lightning";
     "FIREYEAR" := VStr "2020" ]}.

Definition spec_row2 : gmap string value :=
  {[ "TOTALACRES" := VStr "bad"; "STATCAUSE" := VNone; "FIREYEAR" := VStr "x" ]}.

Definition spec_example : DataFrame :=
  {| columns := ["TOTALACRES"; "STATCAUSE"; "FIREYEAR"];
     rows := [spec_row1; spec_row2] |}.

Definition spec_example_out : DataFrame :=
  {| columns := prepared_columns;
     rows := [ {[ "TOTALACRES" := VNum (Fin (25 # 2));
                  "STATCAUSE" := VStr "Lightning";
                  "CAUSE_CATEGORY" := VStr "Natural";
                  "FIRE_SIZE_CATEGORY" := VStr Medium;
                  "FIREYEAR" := VNum (Fin 2020) ]} ] |}.

(** The record the specification expects instead. *)
Definition spec_example_claimed : gmap string value :=
  {[ "TOTALACRES" := VNum (Fin (25 # 2));
     "STATCAUSE" := VStr "Unknown";
     "CAUSE_CATEGORY" := VStr "Unknown";
     "FIRE_SIZE_CATEGORY" := VStr Medium;
     "FIREYEAR" := VNum (Fin 2020) ]}.

(** A generator for the examples of the sampling step: it has no state
    and picks the first [n] positions. *)
Definition first_positions (g : unit) (len n : nat) : list nat * unit :=
  (seq 0 n, g).

Definition three_rows : DataFrame :=
  {| columns := ["FIREYEAR"];
     rows := [ {[ "FIREYEAR" := VNum (Fin 2019) ]};
               {[ "FIREYEAR" := VNum (Fin 2020) ]};
               {[ "FIREYEAR" := VNum (Fin 2021) ]} ] |}.

(** Three records to look at the causes: one without a cause, one with
    a cause the table does not have, one with lightning. *)
Definition cause_example : DataFrame :=
  {| columns := ["FIREYEAR"; "STATCAUSE"];
     rows := [ {[ "FIREYEAR" := VNum (Fin 2020); "STATCAUSE" := VNone ]};
               {[ "FIREYEAR" := VNum (Fin 2020); "STATCAUSE" := VStr "Meteor" ]};
               {[ "FIREYEAR" := VNum (Fin 2021); "STATCAUSE" := VStr "Lightning" ]} ] |}.

(** Records on the edges of the size bins. *)
Definition edge_example : DataFrame :=
  {| columns := ["TOTALACRES"];
     rows := [ {[ "TOTALACRES" := VStr "9999" ]};
               {[ "TOTALACRES" := VStr "10000" ]};
               {[ "TOTALACRES" := VStr "10000.5" ]};
               {[ "TOTALACRES" := VStr "1000" ]};
               {[ "TOTALACRES" := VStr "100" ]} ] |}.

(** A raw frame with point geometries, and a prepared frame as the
    spatial page receives it. *)
Definition geo_example : DataFrame :=
  {| columns := ["TOTALACRES"; "FIREYEAR"; "geometry"];
     rows := [ {[ "TOTALACRES" := VStr "20000"; "FIREYEAR" := VStr "2020";
                  "geometry" := VPoint (-114) 45 ]};
               {[ "TOTALACRES" := VStr "5"; "FIREYEAR" := VStr "2020";
                  "geometry" := VNone ]} ] |}.

Definition map_example : DataFrame :=
  {| columns := ["TOTALACRES"; "FIREYEAR"; "geometry"; "FIRE_SIZE_CATEGORY"];
     rows := [ {[ "TOTALACRES" := VNum (Fin 20000); "FIREYEAR" := VNum (Fin 2020);
                  "geometry" := VPoint (-114) 45;
                  "FIRE_SIZE_CATEGORY" := VStr Mega ]};
               {[ "TOTALACRES" := VNum (Fin 30000); "FIREYEAR" := VNum (Fin 2020);
                  "geometry" := VPoint (-120) 38;
                  "FIRE_SIZE_CATEGORY" := VStr Mega ]};
               {[ "TOTALACRES" := VNum (Fin 5); "FIREYEAR" := VNum (Fin 2020);
                  "geometry" := VPoint (-100) 40;
                  "FIRE_SIZE_CATEGORY" := VStr Small ]};
               {[ "TOTALACRES" := VNum (Fin 50000); "FIREYEAR" := VNum (Fin 2019);
                  "geometry" := VPoint (-110) 44;
                  "FIRE_SIZE_CATEGORY" := VStr Mega ]} ] |}.

(** ** Python's [str] and [int] on integers *)

Module Py.

(** [str(n)] for an integer [n]: its decimal digits, after a minus sign
    when it is negative. *)
Definition str (z : Z) : string := pretty z.

(** The ASCII characters [int] strips: tab to carriage return, the four
    separators and the blank. *)
Definition is_space (c : ascii) : bool :=
  let n := nat_of_ascii c in
  (n =? 32)%nat || ((9 <=? n)%nat && (n <=? 13)%nat)
  || ((28 <=? n)%nat && (n <=? 31)%nat).

Fixpoint lstrip (s : string) : string :=
  match s with
  | String c r => if is_space c then lstrip r else s
  | EmptyString => s
  end.

Fixpoint rstrip (s : string) : string :=
  match s with
  | String c r =>
      match rstrip r with
      | EmptyString => if is_space c then EmptyString else String c EmptyString
      | r' => String c r'
      end
  | EmptyString => EmptyString
  end.

(** Decimal digits, single underscores allowed between two digits;
    [after_digit] tells whether the previous character was a digit. *)
Fixpoint digits (s : string) (acc : Z) (after_digit : bool) : option Z :=
  match s with
  | String c r =>
      if Reader.is_digit c then digits r (10 * acc + Reader.digit c)%Z true
      else if Ascii.eqb c "_" && after_digit then digits r acc false
      else None
  | EmptyString => if after_digit then Some acc else None
  end.

(** Whether every character of a string satisfies a test. *)
Fixpoint forall_chars (P : ascii → bool) (s : string) : bool :=
  match s with
  | String c r => P c && forall_chars P r
  | EmptyString => true
  end.

(** [int(s)] for a string [s] in base ten; [None] is [ValueError]. *)
Definition int (s : string) : option Z :=
  let '(neg, body) := Reader.sign (rstrip (lstrip s)) in
  (λ n, if neg then (- n)%Z else n) <$> digits body 0 false.

End Py.

(** ** The overview page: fire severity *)

(** [df['TOTALACRES'] > threshold] in one cell: a comparison with NaN is
    false, and a cell that is not a number raises [TypeError] ([None]). *)
Definition gt_cell (v : value) (threshold : Q) : option bool :=
  match v with
  | VNum (Fin q) => Some (if Qlt_le_dec threshold q then true else false)
  | VNum PInf => Some true
  | VNum NInf | VNum NaN => Some false
  | VNone | VStr _ | VPoint _ _ => None
  end.

(** [df[df['TOTALACRES'] > threshold]] *)
Fixpoint rows_above (threshold : Q) (rs : list (gmap string value))
  : option (list (gmap string value)) :=
  match rs with
  | [] => Some []
  | r :: rest =>
      match gt_cell (cell "TOTALACRES" r) threshold, rows_above threshold rest with
      | Some b, Some rest' => Some (if b then r :: rest' else rest')
      | _, _ => None
      end
  end.

(** The fire severity box of [show_advanced_overview]: the numbers of
    large and of mega fires it writes.  Each is written with its share of
    [len(df)], and that division raises on an empty frame.  Without an
    acreage column the box stays empty. *)
Definition fire_severity (df : DataFrame) : outcome (option (nat * nat)) :=
  if has_column "TOTALACRES" df
  then
    match rows_above 1000 (rows df), rows_above 10000 (rows df) with
    | Some large_fires, Some mega_fires =>
        if (length (rows df) =? 0)%nat then Raises "ZeroDivisionError"
        else Returns (Some (length large_fires, length mega_fires))
    | _, _ => Raises "TypeError"
    end
  else Returns None.

(** ** The spatial page: filters and map columns *)

(** The choices of the size select box and the table from a choice to a
    label of [pd.cut]. *)
Definition size_options : list string :=
  [ "All Fires"; "Small (<10 acres)"; "Medium (10-100)"; "Large (100-1000)";
    "Very Large (1000-10000)"; "Mega (>10000)" ].

Definition size_mapping : gmap string string :=
  list_to_map
    [ ("Small (<10 acres)", "Small (<10)");
      ("Medium (10-100)", "Medium (10-100)");
      ("Large (100-1000)", "Large (100-1000)");
      ("Very Large (1000-10000)", "Very Large (1000-10000)");
      ("Mega (>10000)", "Mega (>10000)") ].

(** [column == label] in one cell: a missing category equals no label. *)
Definition eq_str (v : value) (s : string) : bool :=
  match v with
  | VStr t => bool_decide (t = s)
  | _ => false
  end.

(** [column == year_int] in one cell. *)
Definition eq_int (v : value) (z : Z) : bool :=
  match v with
  | VNum (Fin q) => Qeq_bool q (inject_Z z)
  | _ => false
  end.

(** The size filter; [size_mapping[size_filter]] raises [KeyError] on a
    choice the table does not have. *)
Definition apply_size_filter (size_filter : string) (df : DataFrame)
  : outcome DataFrame :=
  if negb (bool_decide (size_filter = "All Fires"))
     && has_column "FIRE_SIZE_CATEGORY" df
  then
    match size_mapping !! size_filter with
    | Some label =>
        Returns (select (λ r, eq_str (cell "FIRE_SIZE_CATEGORY" r) label) df)
    | None => Raises "KeyError"
    end
  else Returns df.

(** The year filter; a choice [int] cannot read leaves the frame as it is
    and shows an error, returned beside the frame. *)
Definition apply_year_filter (year_filter : string) (df : DataFrame)
  : DataFrame * option string :=
  if negb (bool_decide (year_filter = "All Years")) && has_column "FIREYEAR" df
  then
    match Py.int year_filter with
    | Some year_int => (select (λ r, eq_int (cell "FIREYEAR" r) year_int) df, None)
    | None => (df, Some ("Invalid year format: " +:+ year_filter))
    end
  else (df, None).

(** An integer column: the integers its cells hold, [None] when a cell is
    not an integer (the year column is one after [.astype(int)]). *)
Definition int_cell (v : value) : option Z :=
  match v with
  | VNum (Fin q) => if bool_decide (Qden q = 1%positive) then Some (Qnum q) else None
  | _ => None
  end.

Definition int_column (c : string) (df : DataFrame) : option (list Z) :=
  mapM (λ r, int_cell (cell c r)) (rows df).

(** [Series.unique()]: the distinct values in the order they first
    appear. *)
Definition unique (l : list Z) : list Z :=
  foldl (λ seen x, if bool_decide (x ∈ seen) then seen else (seen ++ [x])%list) [] l.

(** The choices of the year select box on an integer year column:
    ["All Years"] and [str(int(year))] for the sorted distinct years;
    without a year column there is no box and the filter is
    ["All Years"]. *)
Definition year_options (df : DataFrame) : option (list string) :=
  if has_column "FIREYEAR" df
  then (λ years, "All Years" :: (Py.str <$> merge_sort Z.le (unique years)))
       <$> int_column "FIREYEAR" df
  else Some ["All Years"].

(** The columns added for the map: the size category, computed again
    from the acreage, and the coordinates of the point.  Each is computed
    cell by cell and [None] is a cell on which the computation raises:
    [pd.cut] on an acreage that is not a number, [.y] or [.x] on a geometry
    that is not a point (a missing geometry gives NaN). *)
Definition map_size_cell (acres : value) : option value :=
  match acres with
  | VNum x => Some (fire_size_category x)
  | VNone | VStr _ | VPoint _ _ => None
  end.

Definition lat_cell (geometry : value) : option value :=
  match geometry with
  | VPoint lon lat => Some (VNum (Fin lat))
  | VNone => Some (VNum NaN)
  | VNum _ | VStr _ => None
  end.

Definition lon_cell (geometry : value) : option value :=
  match geometry with
  | VPoint lon lat => Some (VNum (Fin lon))
  | VNone => Some (VNum NaN)
  | VNum _ | VStr _ => None
  end.

(** [df[c] = f(df)] where computing a cell can raise. *)
Definition assign_checked (c : string) (f : gmap string value → option value)
    (df : DataFrame) : option DataFrame :=
  (λ rs, {| columns := if has_column c df then columns df
                       else (columns df ++ [c])%list;
            rows := rs |})
  <$> mapM (λ r, (λ v, <[c := v]> r) <$> f r) (rows df).

(** Lines 367-377: [filtered_df.geometry] raises [AttributeError] on a
    frame without a geometry column. *)
Definition add_map_columns (df : DataFrame) : outcome DataFrame :=
  if has_column "TOTALACRES" df
  then
    match assign_checked "SIZE_CATEGORY"
            (λ r, map_size_cell (cell "TOTALACRES" r)) df with
    | None => Raises "TypeError"
    | Some df1 =>
        if negb (has_column "geometry" df1) then Raises "AttributeError"
        else
          match assign_checked "LAT" (λ r, lat_cell (cell "geometry" r)) df1 with
          | None => Raises "ValueError"
          | Some df2 =>
              match assign_checked "LON" (λ r, lon_cell (cell "geometry" r)) df2 with
              | None => Raises "ValueError"
              | Some df3 => Returns df3
              end
          end
    end
  else Returns df.

(** The frames the map columns are computed on without raising: the
    acreage cells are numbers and the geometries are points or
    missing. *)
Definition is_number (v : value) : bool :=
  match v with VNum _ => true | _ => false end.

Definition is_point_or_none (v : value) : bool :=
  match v with VPoint _ _ | VNone => true | _ => false end.

Section SpatialPage.

Variable rng : Type.
Variable RandomState : Z → rng.
Variable choice : rng → nat → nat → list nat * rng.

(** Lines 336-377 of [show_advanced_spatial_analysis]: the two filters,
    the sample, the map columns.  The result is the frame drawn on the
    map and the error shown for the year, if any. *)
Definition spatial_map_data (sample_size : nat) (size_filter year_filter : string)
    (global : rng) (df : DataFrame)
  : outcome (DataFrame * option string) * rng :=
  match apply_size_filter size_filter df with
  | Raises e => (Raises e, global)
  | Returns by_size =>
      let '(by_year, shown_error) := apply_year_filter year_filter by_size in
      match sample_for_map rng RandomState choice sample_size global by_year with
      | (Raises e, global') => (Raises e, global')
      | (Returns sampled, global') =>
          match add_map_columns sampled with
          | Raises e => (Raises e, global')
          | Returns mapped => (Returns (mapped, shown_error), global')
          end
      end
  end.

End SpatialPage.

(** ** Loading and dispatch *)

(** What [load_wildfire_data] tells the user. *)
Inductive load_message : Type :=
| LoadingInfo
| LoadedSuccess (records : nat)
| LoadFailed (exn : string).

Section Load.

(** The secrets of the deployment, the text of the exception a missing
    secret raises, the download of the object from the bucket (client,
    [get_object] and [read]), and the reading of the downloaded bytes. *)
Variable secrets : gmap string string.
Variable key_error : string → string.
Variable get_object : string → string → string → string → outcome string.
Variable read_file : string → outcome DataFrame.

Definition secret (key : string) : outcome string :=
  match secrets !! key with
  | Some v => Returns v
  | None => Raises (key_error key)
  end.

(** The body of the [try]: what it returns or raises, and the messages
    shown up to there. *)
Definition load_body : outcome DataFrame * list load_message :=
  match secret "AWS_ACCESS_KEY_ID" with
  | Raises e => (Raises e, [])
  | Returns aws_access_key_id =>
  match secret "AWS_SECRET_ACCESS_KEY" with
  | Raises e => (Raises e, [])
  | Returns aws_secret_access_key =>
  match secret "S3_BUCKET_NAME" with
  | Raises e => (Raises e, [])
  | Returns bucket_name =>
  match secret "S3_OBJECT_KEY" with
  | Raises e => (Raises e, [])
  | Returns file_path =>
  match get_object aws_access_key_id aws_secret_access_key bucket_name file_path with
  | Raises e => (Raises e, [LoadingInfo])
  | Returns geojson_data =>
  match read_file geojson_data with
  | Raises e => (Raises e, [LoadingInfo])
  | Returns gdf => (Returns gdf, [LoadingInfo; LoadedSuccess (length (rows gdf))])
  end end end end end end.

(** The function under its decorator: every exception of the body is
    caught, shown and turned into [None]. *)
Definition load_uncached : option DataFrame * list load_message :=
  match load_body with
  | (Returns gdf, shown) => (Some gdf, shown)
  | (Raises e, shown) => (None, (shown ++ [LoadFailed e])%list)
  end.

(** [@st.cache_data] on a function without arguments: the cache is empty
    or holds what one run returned (a frame or [None]) with the messages
    that run showed.  [replay] is what the library shows again of them on a
    hit. *)
Variable replay : list load_message → list load_message.

(** [load_wildfire_data()]: on an empty cache the body runs and its
    result is stored; on a hit the stored result is returned and neither
    the secrets nor the bucket are consulted. *)
Definition load_wildfire_data
    (cache : option (option DataFrame * list load_message))
  : (option DataFrame * list load_message)
    * option (option DataFrame * list load_message) :=
  match cache with
  | Some (result, shown) => ((result, replay shown), cache)
  | None => (load_uncached, Some load_uncached)
  end.

End Load.

(** The secrets the loader reads, in the order it reads them. *)
Definition required_secrets : list string :=
  ["AWS_ACCESS_KEY_ID"; "AWS_SECRET_ACCESS_KEY"; "S3_BUCKET_NAME"; "S3_OBJECT_KEY"].

(** What [main] puts on the page. *)
Inductive page : Type :=
| FailedToLoad
| FailedToProcess
| AdvancedOverview (df : DataFrame)
| AdvancedCausesAnalysis (df : DataFrame)
| AdvancedSpatialAnalysis (df : DataFrame)
| NoSection (df : DataFrame).

(** [main], given what the loader returned and the section chosen in the
    sidebar. *)
Definition main (str_to_float : string → option float64)
    (gdf : option DataFrame) (choice : string) : outcome page :=
  match gdf with
  | None => Returns FailedToLoad
  | Some _ =>
      match clean_and_prepare_data str_to_float gdf with
      | Raises e => Raises e
      | Returns None => Returns FailedToProcess
      | Returns (Some df) =>
          Returns
            (if bool_decide (choice = "Advanced Overview")
             then AdvancedOverview df
             else if bool_decide (choice = "Advanced Causes Analysis")
             then AdvancedCausesAnalysis df
             else if bool_decide (choice = "Advanced Spatial Analysis")
             then AdvancedSpatialAnalysis df
             else NoSection df)
      end
  end.

(** * Properties *)

(** ** Cells of an updated row *)

Lemma cell_insert_eq c v (r : gmap string value) : cell c (<[c := v]> r) = v.
Proof. unfold cell. apply lookup_total_insert_eq. Qed.

Lemma cell_insert_ne c c' v (r : gmap string value) :
  c' ≠ c → cell c (<[c' := v]> r) = cell c r.
Proof. intros Hne. unfold cell. by apply lookup_total_insert_ne. Qed.

Lemma filter_fmap {A B} (f : A → B) (P : B → bool) (l : list A) :
  List.filter P (f <$> l) = f <$> List.filter (λ a, P (f a)) l.
Proof.
  induction l as [|a l IH]; [done|].
  cbn. destruct (P (f a)); cbn; by rewrite IH.
Qed.

Lemma filter_ext_bool {A} (P Q : A → bool) (l : list A) :
  (∀ a, P a = Q a) → List.filter P l = List.filter Q l.
Proof.
  intros HPQ. induction l as [|a l IH]; [done|].
  cbn. rewrite HPQ, IH. done.
Qed.

Lemma filter_true {A} (l : list A) : List.filter (λ _, true) l = l.
Proof. induction l as [|a l IH]; [done|]. cbn. by rewrite IH. Qed.

Lemma DataFrame_eq df cs rs :
  columns df = cs → rows df = rs → df = {| columns := cs; rows := rs |}.
Proof. destruct df. cbn. by intros -> ->. Qed.

Lemma forallb_fmap {A B} (f : A → B) (P : B → bool) (l : list A) :
  forallb P (f <$> l) = forallb (λ a, P (f a)) l.
Proof. induction l as [|a l IH]; [done|]. cbn. by rewrite IH. Qed.

Lemma forallb_ext_bool {A} (P Q : A → bool) (l : list A) :
  (∀ a, P a = Q a) → forallb P l = forallb Q l.
Proof.
  intros HPQ. induction l as [|a l IH]; [done|].
  cbn. by rewrite HPQ, IH.
Qed.

Lemma forallb_ext_in {A} (P Q : A → bool) (l : list A) :
  (∀ a, In a l → P a = Q a) → forallb P l = forallb Q l.
Proof.
  intros HPQ. induction l as [|a l IH]; [done|].
  cbn. rewrite HPQ by by left. rewrite IH; [done|].
  intros b Hb. apply HPQ. by right.
Qed.

(** ** [.astype(int)] on a column *)

Lemma astype_int_fmap c (rs : list (gmap string value)) :
  astype_int c rs =
    if forallb (λ r, is_finite (num_of (cell c r))) rs
    then Some ((λ r, <[c := VNum (Fin (inject_Z
                  (default int64_min (astype_int_cell (num_of (cell c r))))))]> r)
               <$> rs)
    else None.
Proof.
  induction rs as [|r rs IH]; [done|].
  cbn [astype_int forallb fmap list_fmap]. rewrite IH.
  destruct (num_of (cell c r)) as [q| | |]; cbn; try done.
  by destruct (forallb _ _).
Qed.

Section Rowwise.

Variable p : string → option float64.

Lemma has_column_assign c c' f df :
  has_column c (assign c' f df) = has_column c df || bool_decide (c = c').
Proof.
  unfold assign; cbn; unfold has_column.
  destruct (decide (c = c')) as [->|Hne].
  - rewrite (bool_decide_eq_true_2 (c' = c')), orb_true_r by done.
    apply bool_decide_eq_true_2. case_bool_decide; [done|]. cbn [columns].
    apply elem_of_app. right. by apply list_elem_of_singleton.
  - rewrite (bool_decide_eq_false_2 (c = c')), orb_false_r by done.
    apply bool_decide_ext. case_bool_decide; [done|]. cbn [columns].
    rewrite elem_of_app, list_elem_of_singleton. tauto.
Qed.

Lemma columns_assign c f df : columns (assign c f df) = add_column c (columns df).
Proof. done. Qed.

(** The whole pipeline is the row-wise one on the kept rows, and it
    raises exactly on the frames that are not castable. *)
Lemma year_of_row_acres b r : year_of p (row_acres p b r) = year_of p r.
Proof.
  unfold year_of, row_acres. destruct b; [|done].
  by rewrite cell_insert_ne.
Qed.

Lemma prepare_TOTALACRES_rows df :
  rows (prepare_TOTALACRES p df)
  = row_acres p (has_column "TOTALACRES" df) <$> rows df.
Proof.
  unfold prepare_TOTALACRES, row_acres.
  destruct (has_column "TOTALACRES" df); cbn; [done|].
  by rewrite list_fmap_id.
Qed.

Lemma prepare_TOTALACRES_columns df :
  columns (prepare_TOTALACRES p df) = columns df.
Proof.
  unfold prepare_TOTALACRES.
  destruct (has_column "TOTALACRES" df) eqn:H; [|done].
  cbn. by rewrite H.
Qed.

Lemma has_column_prepare_TOTALACRES c df :
  has_column c (prepare_TOTALACRES p df) = has_column c df.
Proof. unfold has_column. by rewrite prepare_TOTALACRES_columns. Qed.

(** The year step on its own. *)
Lemma prepare_FIREYEAR_rowwise df :
  prepare_FIREYEAR p df =
    if castable p df
    then Returns {| columns := columns df;
                    rows := row_year p (has_column "FIREYEAR" df)
                            <$> List.filter (kept p df) (rows df) |}
    else Raises "IntCastingNaNError".
Proof.
  unfold prepare_FIREYEAR, castable, kept, row_year.
  destruct (has_column "FIREYEAR" df) eqn:HFY; cbn [negb orb].
  - cbn [select rows columns assign]. rewrite HFY.
    rewrite filter_fmap, astype_int_fmap.
    rewrite (filter_ext_bool _ (λ r, notna (VNum (year_of p r)))).
    2:{ intros r. by rewrite cell_insert_eq. }
    rewrite forallb_fmap.
    rewrite (forallb_ext_bool _ (λ r, is_finite (year_of p r))).
    2:{ intros r. by rewrite cell_insert_eq. }
    destruct (forallb _ _); [|done].
    do 2 f_equal. rewrite <- list_fmap_compose.
    apply list_fmap_ext. intros _ r _. cbn.
    rewrite cell_insert_eq, insert_insert_eq. reflexivity.
  - f_equal. apply DataFrame_eq; [done|].
    by rewrite list_fmap_id, filter_true.
Qed.

Lemma kept_prepare_TOTALACRES df r :
  kept p (prepare_TOTALACRES p df) (row_acres p (has_column "TOTALACRES" df) r)
  = kept p df r.
Proof.
  unfold kept. by rewrite has_column_prepare_TOTALACRES, year_of_row_acres.
Qed.

Lemma castable_prepare_TOTALACRES df :
  castable p (prepare_TOTALACRES p df) = castable p df.
Proof.
  unfold castable.
  rewrite has_column_prepare_TOTALACRES, prepare_TOTALACRES_rows, filter_fmap.
  rewrite forallb_fmap. f_equal.
  rewrite (filter_ext_bool _ (kept p df)) by apply kept_prepare_TOTALACRES.
  apply forallb_ext_bool. intros r. by rewrite year_of_row_acres.
Qed.

Lemma prepare_STATCAUSE_rows df :
  rows (prepare_STATCAUSE df)
  = row_cause (has_column "STATCAUSE" df) <$> rows df.
Proof.
  unfold prepare_STATCAUSE, row_cause.
  destruct (has_column "STATCAUSE" df); cbn.
  - by rewrite <- list_fmap_compose.
  - by rewrite list_fmap_id.
Qed.

Lemma prepare_STATCAUSE_columns df :
  columns (prepare_STATCAUSE df)
  = if has_column "STATCAUSE" df
    then add_column "CAUSE_CATEGORY" (columns df) else columns df.
Proof.
  unfold prepare_STATCAUSE.
  destruct (has_column "STATCAUSE" df) eqn:H; [|done].
  cbn. unfold has_column at 1. cbn. by rewrite H.
Qed.

Lemma has_column_prepare_STATCAUSE c df :
  c ≠ "CAUSE_CATEGORY" →
  has_column c (prepare_STATCAUSE df) = has_column c df.
Proof.
  intros Hne. unfold has_column. rewrite prepare_STATCAUSE_columns.
  destruct (has_column "STATCAUSE" df); [|done].
  unfold add_column.
  destruct (bool_decide ("CAUSE_CATEGORY" ∈ columns df)); [done|].
  apply bool_decide_ext. rewrite elem_of_app, list_elem_of_singleton. tauto.
Qed.

Lemma add_FIRE_SIZE_CATEGORY_rows df :
  rows (add_FIRE_SIZE_CATEGORY df)
  = row_size (has_column "TOTALACRES" df) <$> rows df.
Proof.
  unfold add_FIRE_SIZE_CATEGORY, row_size.
  destruct (has_column "TOTALACRES" df); cbn; [done|].
  by rewrite list_fmap_id.
Qed.

Lemma add_FIRE_SIZE_CATEGORY_columns df :
  columns (add_FIRE_SIZE_CATEGORY df)
  = if has_column "TOTALACRES" df
    then add_column "FIRE_SIZE_CATEGORY" (columns df) else columns df.
Proof.
  unfold add_FIRE_SIZE_CATEGORY. by destruct (has_column "TOTALACRES" df).
Qed.

(** The whole pipeline is the row-wise one on the kept rows, and it
    raises exactly on the frames that are not castable. *)
Lemma clean_rowwise df :
  clean_and_prepare_data p (Some df) =
    if castable p df
    then Returns (Some {| columns := columns_out df;
                          rows := row_out p df <$> List.filter (kept p df) (rows df) |})
    else Raises "IntCastingNaNError".
Proof.
  unfold clean_and_prepare_data.
  rewrite prepare_FIREYEAR_rowwise, castable_prepare_TOTALACRES.
  destruct (castable p df); [|done].
  do 2 f_equal. apply DataFrame_eq.
  - rewrite add_FIRE_SIZE_CATEGORY_columns, prepare_STATCAUSE_columns.
    rewrite has_column_prepare_STATCAUSE by done.
    unfold has_column at 1 2. cbn [columns].
    by rewrite prepare_TOTALACRES_columns.
  - rewrite add_FIRE_SIZE_CATEGORY_rows, prepare_STATCAUSE_rows.
    rewrite has_column_prepare_STATCAUSE by done.
    unfold has_column at 1 2. cbn [columns rows].
    rewrite prepare_TOTALACRES_columns, prepare_TOTALACRES_rows.
    rewrite has_column_prepare_TOTALACRES, filter_fmap.
    rewrite (filter_ext_bool _ (kept p df)) by apply kept_prepare_TOTALACRES.
    rewrite <- !list_fmap_compose. done.
Qed.


End Rowwise.

(** ** Fire size categories *)

(** The bins of [pd.cut] are open below and closed above. *)
Lemma fire_size_category_Fin (q : Q) :
  fire_size_category (Fin q) =
    if Qlt_le_dec 0 q then
      if Qlt_le_dec 10 q then
        if Qlt_le_dec 100 q then
          if Qlt_le_dec 1000 q then
            if Qlt_le_dec 10000 q then VStr Mega else VStr VeryLarge
          else VStr Large
        else VStr Medium
      else VStr Small
    else VNum NaN.
Proof.
  unfold fire_size_category, Cut.cut, size_bins. cbn [Cut.searchsorted_left Cut.lt].
  repeat (destruct (Qlt_le_dec _ q); [|reflexivity]).
  reflexivity.
Qed.

(** ** The cause table *)

Lemma cause_category_table (v : value) :
  cause_category v = VStr (cause_category_spec v).
Proof.
  destruct v as [|x|s|lon lat]; try reflexivity.
  cbn [cause_category cause_category_spec]. f_equal.
  destruct (decide (s = "Lightning")) as [->|]; [by vm_compute|].
  destruct (decide (s = "Equipment Use")) as [->|]; [by vm_compute|].
  destruct (decide (s = "Smoking")) as [->|]; [by vm_compute|].
  destruct (decide (s = "Campfire")) as [->|]; [by vm_compute|].
  destruct (decide (s = "Debris Burning")) as [->|]; [by vm_compute|].
  destruct (decide (s = "Railroad")) as [->|]; [by vm_compute|].
  destruct (decide (s = "Arson")) as [->|]; [by vm_compute|].
  destruct (decide (s = "Children")) as [->|]; [by vm_compute|].
  destruct (decide (s = "Miscellaneous")) as [->|]; [by vm_compute|].
  destruct (decide (s = "Fireworks")) as [->|]; [by vm_compute|].
  destruct (decide (s = "Powerline")) as [->|]; [by vm_compute|].
  destruct (decide (s = "Unknown")) as [->|]; [by vm_compute|].
  unfold cause_mapping. cbn [list_to_map foldr uncurry fst snd].
  rewrite !lookup_insert_ne, lookup_empty by done. cbn [default].
  assert (s ∉ human_causes) as Hnot.
  { unfold human_causes. intros Hin.
    repeat (apply elem_of_cons in Hin as [->|Hin]; [done|]).
    by apply elem_of_nil in Hin. }
  repeat case_bool_decide; done.
Qed.

(** The table at the values the specification lists; the match is
    case-sensitive, and a missing cause has been defaulted before. *)
Example cause_category_examples :
  cause_category (VStr "Lightning") = VStr "Natural"
  ∧ cause_category (VStr "Arson") = VStr "Human"
  ∧ cause_category (VStr "Miscellaneous") = VStr "Other"
  ∧ cause_category (fillna_unknown VNone) = VStr "Unknown"
  ∧ cause_category (VStr "Meteor") = VStr "Other"
  ∧ cause_category (VStr "lightning") = VStr "Other".
Proof. repeat split; by vm_compute. Qed.

(** ** Cells of a prepared row *)

Lemma lookup_cell c v (r : gmap string value) : r !! c = Some v → cell c r = v.
Proof. intros H. unfold cell. by apply lookup_total_correct. Qed.

Ltac cells :=
  repeat first [ rewrite cell_insert_eq | rewrite cell_insert_ne by done ].

Ltac lookups :=
  repeat first [ rewrite lookup_insert_eq | rewrite lookup_insert_ne by done ].

Section Cells.

Variable p : string → option float64.
Variable df : DataFrame.

Lemma row_out_lookup_TOTALACRES r :
  has_column "TOTALACRES" df = true →
  row_out p df r !! "TOTALACRES"
  = Some (VNum (fillna_zero (to_numeric p (cell "TOTALACRES" r)))).
Proof.
  intros HTA. unfold row_out, row_size, row_cause, row_year, row_acres.
  rewrite HTA. destruct (has_column "STATCAUSE" df), (has_column "FIREYEAR" df);
    cbn zeta; lookups; reflexivity.
Qed.

Lemma row_out_lookup_FIREYEAR r :
  has_column "FIREYEAR" df = true →
  row_out p df r !! "FIREYEAR" = Some (VNum (Fin (inject_Z (year_int p r)))).
Proof.
  intros HFY. unfold row_out, row_size, row_cause, row_year.
  rewrite HFY. unfold year_int. rewrite year_of_row_acres.
  destruct (has_column "STATCAUSE" df), (has_column "TOTALACRES" df);
    cbn zeta; lookups; reflexivity.
Qed.

Lemma row_out_lookup_STATCAUSE r :
  has_column "STATCAUSE" df = true →
  row_out p df r !! "STATCAUSE" = Some (fillna_unknown (cell "STATCAUSE" r)).
Proof.
  intros HSC. unfold row_out, row_size, row_cause, row_year, row_acres, cause_cell.
  rewrite HSC. destruct (has_column "FIREYEAR" df), (has_column "TOTALACRES" df);
    cbn zeta; lookups; cells; reflexivity.
Qed.

Lemma row_out_lookup_CAUSE_CATEGORY r :
  has_column "STATCAUSE" df = true →
  row_out p df r !! "CAUSE_CATEGORY"
  = Some (cause_category (fillna_unknown (cell "STATCAUSE" r))).
Proof.
  intros HSC.
  unfold row_out, row_size, row_cause, row_year, row_acres, category_cell, cause_cell.
  rewrite HSC. destruct (has_column "FIREYEAR" df), (has_column "TOTALACRES" df);
    cbn zeta; lookups; cells; reflexivity.
Qed.

Lemma row_out_lookup_FIRE_SIZE_CATEGORY r :
  has_column "TOTALACRES" df = true →
  row_out p df r !! "FIRE_SIZE_CATEGORY"
  = Some (fire_size_category (fillna_zero (to_numeric p (cell "TOTALACRES" r)))).
Proof.
  intros HTA.
  unfold row_out, row_size, row_cause, row_year, row_acres, size_cell, acres_cell.
  rewrite HTA. destruct (has_column "STATCAUSE" df), (has_column "FIREYEAR" df);
    cbn zeta; lookups; cells; reflexivity.
Qed.

Lemma row_out_TOTALACRES r :
  has_column "TOTALACRES" df = true →
  cell "TOTALACRES" (row_out p df r)
  = VNum (fillna_zero (to_numeric p (cell "TOTALACRES" r))).
Proof. intros H. by apply lookup_cell, row_out_lookup_TOTALACRES. Qed.

Lemma row_out_FIREYEAR r :
  has_column "FIREYEAR" df = true →
  cell "FIREYEAR" (row_out p df r) = VNum (Fin (inject_Z (year_int p r))).
Proof. intros H. by apply lookup_cell, row_out_lookup_FIREYEAR. Qed.

Lemma row_out_STATCAUSE r :
  has_column "STATCAUSE" df = true →
  cell "STATCAUSE" (row_out p df r) = fillna_unknown (cell "STATCAUSE" r).
Proof. intros H. by apply lookup_cell, row_out_lookup_STATCAUSE. Qed.

Lemma row_out_CAUSE_CATEGORY r :
  has_column "STATCAUSE" df = true →
  cell "CAUSE_CATEGORY" (row_out p df r)
  = cause_category (cell "STATCAUSE" (row_out p df r)).
Proof.
  intros H. rewrite row_out_STATCAUSE by done.
  by apply lookup_cell, row_out_lookup_CAUSE_CATEGORY.
Qed.

Lemma row_out_FIRE_SIZE_CATEGORY r :
  has_column "TOTALACRES" df = true →
  cell "FIRE_SIZE_CATEGORY" (row_out p df r)
  = fire_size_category (num_of (cell "TOTALACRES" (row_out p df r))).
Proof.
  intros H. rewrite row_out_TOTALACRES by done.
  by apply lookup_cell, row_out_lookup_FIRE_SIZE_CATEGORY.
Qed.

(** On a castable frame the call returns the row-wise result. *)
Lemma clean_returns :
  castable p df = true →
  clean_and_prepare_data p (Some df)
  = Returns (Some {| columns := columns_out df;
                     rows := row_out p df <$> List.filter (kept p df) (rows df) |}).
Proof. intros Hc. by rewrite clean_rowwise, Hc. Qed.

Lemma clean_raises :
  castable p df = false →
  clean_and_prepare_data p (Some df) = Raises "IntCastingNaNError".
Proof. intros Hc. by rewrite clean_rowwise, Hc. Qed.

(** A property of every kept row and its prepared row relates the kept
    input rows to the output rows, in order. *)
Lemma Forall2_prepared (P : gmap string value → gmap string value → Prop) :
  (∀ r, r ∈ rows df → kept p df r = true → P r (row_out p df r)) →
  Forall2 P (List.filter (kept p df) (rows df))
            (row_out p df <$> List.filter (kept p df) (rows df)).
Proof.
  intros HP. apply Forall2_fmap_r, Forall_Forall2_diag, Forall_forall.
  intros r Hr. apply list_elem_of_In, filter_In in Hr as [Hr Hk].
  apply HP; [by apply list_elem_of_In|done].
Qed.

End Cells.

(** C6: the cause of a prepared record is the input cause, a missing
    one ([None] or NaN) having become "Unknown" with the category
    "Unknown", and a text being kept as it is; the category is read off
    the fixed table by an exact, case-sensitive match: "Lightning" is
    Natural, the nine human causes are Human, "Miscellaneous" is Other,
    "Unknown" is Unknown, and every other value is Other. *)
Theorem cause_category_by_table (p : string → option float64) (df : DataFrame) :
  castable p df = true →
  has_column "STATCAUSE" df = true →
  ∃ out,
    clean_and_prepare_data p (Some df) = Returns (Some out)
    ∧ Forall2 (λ r r',
         (cell "STATCAUSE" r = VNone ∨ cell "STATCAUSE" r = VNum NaN →
          cell "STATCAUSE" r' = VStr "Unknown"
          ∧ cell "CAUSE_CATEGORY" r' = VStr "Unknown")
         ∧ (∀ s, cell "STATCAUSE" r = VStr s → cell "STATCAUSE" r' = VStr s)
         ∧ cell "CAUSE_CATEGORY" r'
           = VStr (cause_category_spec (cell "STATCAUSE" r')))
        (List.filter (kept p df) (rows df)) (rows out).
Proof.
  intros Hc HSC. eexists. split; [by apply clean_returns|].
  cbn [rows]. apply Forall2_prepared. intros r _ _.
  rewrite row_out_CAUSE_CATEGORY, row_out_STATCAUSE by done.
  split; [|split].
  - by intros [-> | ->].
  - by intros s ->.
  - apply cause_category_table.
Qed.

(** ** Acreage *)

(** C3, as the code has it: the prepared [total_acres] is always a number,
    never missing; an input that fails numeric coercion becomes exactly 0;
    an input that coerces to a number is kept as it is, whatever its sign
    (nothing clamps a negative acreage). *)
Theorem total_acres_coerced (p : string → option float64) (df : DataFrame) :
  castable p df = true →
  has_column "TOTALACRES" df = true →
  ∃ out,
    clean_and_prepare_data p (Some df) = Returns (Some out)
    ∧ Forall2 (λ r r',
         ∃ x, cell "TOTALACRES" r' = VNum x
              ∧ x ≠ NaN
              ∧ (to_numeric p (cell "TOTALACRES" r) = NaN → x = Fin 0)
              ∧ (to_numeric p (cell "TOTALACRES" r) ≠ NaN
                 → x = to_numeric p (cell "TOTALACRES" r)))
        (List.filter (kept p df) (rows df)) (rows out).
Proof.
  intros Hc HTA. eexists. split; [by apply clean_returns|].
  cbn [rows]. apply Forall2_prepared. intros r _ _.
  eexists. split; [by apply row_out_TOTALACRES|].
  destruct (to_numeric p (cell "TOTALACRES" r)); cbn; repeat split; congruence.
Qed.

(** ** Size categories of the prepared records *)

(** C1, as the code has it: every prepared record whose [total_acres] is
    positive and not exactly 10 gets the category of its bin among the
    edges 0, 10, 100, 1000, 10000 and infinity, the edges 100, 1000 and
    10000 belonging to the bin below them and the last bin having no upper
    bound: strictly between 0 and 10 is Small, above 10 up to 100 Medium,
    above 100 up to 1000 Large, above 1000 up to 10000 Very Large (so 9999
    and 10000 are both Very Large), and Mega starts strictly above
    10000. *)
Theorem fire_size_category_bins (p : string → option float64) (df : DataFrame) :
  castable p df = true →
  has_column "TOTALACRES" df = true →
  ∃ out,
    clean_and_prepare_data p (Some df) = Returns (Some out)
    ∧ Forall2 (λ r r',
         ∃ x, cell "TOTALACRES" r' = VNum x
              ∧ (∀ q, x = Fin q →
                   ((0 < q)%Q → (q < 10)%Q →
                    cell "FIRE_SIZE_CATEGORY" r' = VStr Small)
                   ∧ ((10 < q)%Q → (q <= 100)%Q →
                      cell "FIRE_SIZE_CATEGORY" r' = VStr Medium)
                   ∧ ((100 < q)%Q → (q <= 1000)%Q →
                      cell "FIRE_SIZE_CATEGORY" r' = VStr Large)
                   ∧ ((1000 < q)%Q → (q <= 10000)%Q →
                      cell "FIRE_SIZE_CATEGORY" r' = VStr VeryLarge)
                   ∧ ((10000 < q)%Q →
                      cell "FIRE_SIZE_CATEGORY" r' = VStr Mega))
              ∧ (x = PInf → cell "FIRE_SIZE_CATEGORY" r' = VStr Mega))
        (List.filter (kept p df) (rows df)) (rows out).
Proof.
  intros Hc HTA. eexists. split; [by apply clean_returns|].
  cbn [rows]. apply Forall2_prepared. intros r _ _.
  eexists. split; [by apply row_out_TOTALACRES|].
  rewrite row_out_FIRE_SIZE_CATEGORY, row_out_TOTALACRES by done. cbn [num_of].
  split.
  - intros q ->. rewrite fire_size_category_Fin.
    repeat split; intros; repeat (destruct (Qlt_le_dec _ q); try lra);
      reflexivity.
  - by intros ->.
Qed.

Lemma fire_size_category_bins_witness :
  ∃ out,
    clean_and_prepare_data Reader.str_to_float (Some edge_example)
    = Returns (Some out)
    ∧ Forall2 (λ r r',
         ∃ x, cell "TOTALACRES" r' = VNum x
              ∧ (∀ q, x = Fin q →
                   ((0 < q)%Q → (q < 10)%Q →
                    cell "FIRE_SIZE_CATEGORY" r' = VStr Small)
                   ∧ ((10 < q)%Q → (q <= 100)%Q →
                      cell "FIRE_SIZE_CATEGORY" r' = VStr Medium)
                   ∧ ((100 < q)%Q → (q <= 1000)%Q →
                      cell "FIRE_SIZE_CATEGORY" r' = VStr Large)
                   ∧ ((1000 < q)%Q → (q <= 10000)%Q →
                      cell "FIRE_SIZE_CATEGORY" r' = VStr VeryLarge)
                   ∧ ((10000 < q)%Q →
                      cell "FIRE_SIZE_CATEGORY" r' = VStr Mega))
              ∧ (x = PInf → cell "FIRE_SIZE_CATEGORY" r' = VStr Mega))
        (List.filter (kept Reader.str_to_float edge_example) (rows edge_example))
        (rows out).
Proof.
  apply (fire_size_category_bins Reader.str_to_float edge_example);
    vm_compute; reflexivity.
Defined.

(** The record of exactly 10000 acres is Very Large, not Mega, and the
    records of exactly 1000 and 100 acres are Large and Medium: an edge is
    not the start of the next bin. *)
Lemma size_category_edge_records_cex :
  clean_and_prepare_data Reader.str_to_float (Some edge_example)
  = Returns (Some
      {| columns := ["TOTALACRES"; "FIRE_SIZE_CATEGORY"];
         rows := [ {[ "TOTALACRES" := VNum (Fin 9999);
                      "FIRE_SIZE_CATEGORY" := VStr VeryLarge ]};
                   {[ "TOTALACRES" := VNum (Fin 10000);
                      "FIRE_SIZE_CATEGORY" := VStr VeryLarge ]};
                   {[ "TOTALACRES" := VNum (Fin (20001 # 2));
                      "FIRE_SIZE_CATEGORY" := VStr Mega ]};
                   {[ "TOTALACRES" := VNum (Fin 1000);
                      "FIRE_SIZE_CATEGORY" := VStr Large ]};
                   {[ "TOTALACRES" := VNum (Fin 100);
                      "FIRE_SIZE_CATEGORY" := VStr Medium ]} ] |})
  ∧ VStr VeryLarge ≠ VStr Mega.
Proof. split; [by vm_compute|discriminate]. Qed.

(** ** Causes *)

(** C5, as the code has it: a missing cause ([None] or NaN) becomes
    "Unknown", and its category is "Unknown"; [fillna] does not touch an
    empty string. *)
Theorem missing_cause_defaulted (p : string → option float64) (df : DataFrame) :
  castable p df = true →
  has_column "STATCAUSE" df = true →
  ∃ out,
    clean_and_prepare_data p (Some df) = Returns (Some out)
    ∧ Forall2 (λ r r',
         isna (cell "STATCAUSE" r) = true →
         cell "STATCAUSE" r' = VStr "Unknown"
         ∧ cell "CAUSE_CATEGORY" r' = VStr "Unknown")
        (List.filter (kept p df) (rows df)) (rows out).
Proof.
  intros Hc HSC. eexists. split; [by apply clean_returns|].
  cbn [rows]. apply Forall2_prepared. intros r _ _ Hna.
  rewrite row_out_CAUSE_CATEGORY, row_out_STATCAUSE by done.
  unfold fillna_unknown. rewrite Hna. split; reflexivity.
Qed.

(** ** Years *)

Lemma trunc_int64_range (q : Q) :
  (int64_min ≤ trunc_int64 q ≤ int64_max)%Z.
Proof.
  unfold trunc_int64.
  destruct ((int64_min <=? Qtruncate q)%Z && (Qtruncate q <=? int64_max)%Z) eqn:H.
  - apply andb_true_iff in H as [H1 H2]. lia.
  - unfold int64_min, int64_max. lia.
Qed.

Lemma trunc_int64_exact (q : Q) :
  (int64_min ≤ Qtruncate q ≤ int64_max)%Z → trunc_int64 q = Qtruncate q.
Proof.
  intros [H1 H2]. unfold trunc_int64.
  apply Z.leb_le in H1, H2. by rewrite H1, H2.
Qed.

Lemma Qtruncate_inject_Z (z : Z) : Qtruncate (inject_Z z) = z.
Proof. unfold Qtruncate. cbn. apply Z.quot_1_r. Qed.

Lemma year_int_range (p : string → option float64) (r : gmap string value) :
  (int64_min ≤ year_int p r ≤ int64_max)%Z.
Proof.
  unfold year_int. destruct (year_of p r); cbn; try apply trunc_int64_range.
  all: unfold int64_min, int64_max; lia.
Qed.

(** Rounding toward zero: the integer lies between 0 and the number, less
    than one away from it. *)
Lemma Qtruncate_toward_zero (q : Q) :
  ((0 <= q)%Q → (inject_Z (Qtruncate q) <= q)%Q ∧ (q < inject_Z (Qtruncate q + 1))%Q)
  ∧ ((q <= 0)%Q → (inject_Z (Qtruncate q - 1) < q)%Q ∧ (q <= inject_Z (Qtruncate q))%Q).
Proof.
  destruct q as [n d]. unfold Qtruncate, Qle, Qlt. cbn.
  pose proof (Z.quot_rem' n (Z.pos d)) as Hqr.
  split; intros Hsign.
  - pose proof (Z.rem_bound_pos n (Z.pos d)). nia.
  - pose proof (Z.rem_bound_pos_neg n (Z.pos d)). nia.
Qed.

(** C7: the call returns on every frame whose kept years are finite; the
    output holds exactly the input records whose year coerces to a number,
    in their order, the others being left out; and every output year is an
    integer. *)
Theorem year_integer_or_dropped (p : string → option float64) (df : DataFrame) :
  castable p df = true →
  has_column "FIREYEAR" df = true →
  ∃ out,
    clean_and_prepare_data p (Some df) = Returns (Some out)
    ∧ rows out
      = row_out p df
        <$> List.filter (λ r, notna (VNum (to_numeric p (cell "FIREYEAR" r)))) (rows df)
    ∧ Forall (λ r', ∃ z : Z,
                (int64_min ≤ z ≤ int64_max)%Z
                ∧ cell "FIREYEAR" r' = VNum (Fin (inject_Z z)))
        (rows out).
Proof.
  intros Hc HFY. eexists. split; [by apply clean_returns|].
  cbn [rows]. split.
  - f_equal. apply filter_ext_bool. intros r. unfold kept. by rewrite HFY.
  - apply Forall_fmap, Forall_forall. intros r _. cbn.
    exists (year_int p r). split; [apply year_int_range|by apply row_out_FIREYEAR].
Qed.

(** C10: a record whose year coerces to a finite number, integral or not,
    is kept, not dropped, and its prepared year is that number rounded
    toward zero: the integer between zero and the number that is less than
    one away from it. *)
Theorem fractional_year_truncated (p : string → option float64) (df : DataFrame) :
  castable p df = true →
  has_column "FIREYEAR" df = true →
  ∃ out,
    clean_and_prepare_data p (Some df) = Returns (Some out)
    ∧ rows out = row_out p df <$> List.filter (kept p df) (rows df)
    ∧ ∀ r q,
        to_numeric p (cell "FIREYEAR" r) = Fin q →
        (int64_min ≤ Qtruncate q ≤ int64_max)%Z →
        kept p df r = true
        ∧ cell "FIREYEAR" (row_out p df r) = VNum (Fin (inject_Z (Qtruncate q)))
        ∧ ((0 <= q)%Q →
           (inject_Z (Qtruncate q) <= q)%Q ∧ (q < inject_Z (Qtruncate q + 1))%Q)
        ∧ ((q <= 0)%Q →
           (inject_Z (Qtruncate q - 1) < q)%Q ∧ (q <= inject_Z (Qtruncate q))%Q).
Proof.
  intros Hc HFY. eexists. split; [by apply clean_returns|].
  cbn [rows]. split; [done|]. intros r q Hq Hrange. split; [|split].
  - unfold kept, year_of. by rewrite HFY, Hq.
  - rewrite row_out_FIREYEAR by done. unfold year_int, year_of.
    rewrite Hq. cbn. by rewrite trunc_int64_exact.
  - apply Qtruncate_toward_zero.
Qed.

(** ** Idempotence *)

Lemma fillna_zero_idem (x : float64) : fillna_zero (fillna_zero x) = fillna_zero x.
Proof. by destruct x. Qed.

Lemma fillna_unknown_idem (v : value) :
  fillna_unknown (fillna_unknown v) = fillna_unknown v.
Proof. unfold fillna_unknown. by destruct (isna v) eqn:H; [|rewrite H]. Qed.

Lemma add_column_elem c cs : c ∈ add_column c cs.
Proof.
  unfold add_column. case_bool_decide; [done|].
  apply elem_of_app. right. by apply list_elem_of_singleton.
Qed.

Lemma elem_of_add_column c c' cs : c ∈ add_column c' cs ↔ c ∈ cs ∨ c = c'.
Proof.
  unfold add_column. case_bool_decide as H.
  - split; [by left|]. by intros [?| ->].
  - by rewrite elem_of_app, list_elem_of_singleton.
Qed.

Lemma add_column_present c cs : c ∈ cs → add_column c cs = cs.
Proof. intros H. unfold add_column. by rewrite bool_decide_eq_true_2. Qed.

Lemma elem_of_columns_out c df :
  c ≠ "CAUSE_CATEGORY" → c ≠ "FIRE_SIZE_CATEGORY" →
  c ∈ columns_out df ↔ c ∈ columns df.
Proof.
  intros H1 H2. unfold columns_out.
  destruct (has_column "STATCAUSE" df), (has_column "TOTALACRES" df);
    rewrite ?elem_of_add_column; tauto.
Qed.

Section Idempotence.

Variable p : string → option float64.
Variable df : DataFrame.

(** The frame the first pass returns. *)
Let out : DataFrame :=
  {| columns := columns_out df;
     rows := row_out p df <$> List.filter (kept p df) (rows df) |}.

Lemma has_column_out c :
  c ≠ "CAUSE_CATEGORY" → c ≠ "FIRE_SIZE_CATEGORY" →
  has_column c out = has_column c df.
Proof.
  intros H1 H2. unfold has_column. apply bool_decide_ext.
  by apply elem_of_columns_out.
Qed.

Lemma columns_out_idem : columns_out out = columns_out df.
Proof.
  unfold columns_out at 1. rewrite !has_column_out by done.
  cbn [columns out]. unfold columns_out.
  destruct (has_column "STATCAUSE" df), (has_column "TOTALACRES" df);
    [| | |done].
  - set (cs := add_column _ (add_column _ (columns df))).
    rewrite (add_column_present "CAUSE_CATEGORY" cs).
    + apply add_column_present, add_column_elem.
    + apply elem_of_add_column. left. apply add_column_elem.
  - apply add_column_present, add_column_elem.
  - apply add_column_present, add_column_elem.
Qed.

(** A prepared row is a fixed point of each of the four steps. *)
Lemma row_out_idem r : row_out p df (row_out p df r) = row_out p df r.
Proof.
  set (r' := row_out p df r). unfold row_out.
  assert (row_acres p (has_column "TOTALACRES" df) r' = r') as ->.
  { unfold row_acres. destruct (has_column "TOTALACRES" df) eqn:HTA; [|done].
    apply insert_id. unfold r', acres_cell.
    rewrite row_out_TOTALACRES, row_out_lookup_TOTALACRES by done.
    cbn [to_numeric]. by rewrite fillna_zero_idem. }
  assert (row_year p (has_column "FIREYEAR" df) r' = r') as ->.
  { unfold row_year. destruct (has_column "FIREYEAR" df) eqn:HFY; [|done].
    apply insert_id. unfold r', year_int at 1, year_of.
    rewrite row_out_FIREYEAR, row_out_lookup_FIREYEAR by done.
    cbn [to_numeric astype_int_cell default].
    rewrite trunc_int64_exact; rewrite Qtruncate_inject_Z;
      [done|apply year_int_range]. }
  assert (row_cause (has_column "STATCAUSE" df) r' = r') as ->.
  { unfold row_cause. destruct (has_column "STATCAUSE" df) eqn:HSC; [|done].
    cbn zeta.
    assert (<["STATCAUSE" := cause_cell r']> r' = r') as ->.
    { apply insert_id. unfold r', cause_cell.
      rewrite row_out_STATCAUSE, row_out_lookup_STATCAUSE by done.
      by rewrite fillna_unknown_idem. }
    apply insert_id. unfold r', category_cell.
    by rewrite row_out_STATCAUSE, row_out_lookup_CAUSE_CATEGORY. }
  unfold row_size. destruct (has_column "TOTALACRES" df) eqn:HTA; [|done].
  apply insert_id. unfold r', size_cell.
  by rewrite row_out_TOTALACRES, row_out_lookup_FIRE_SIZE_CATEGORY.
Qed.

Lemma row_out_out r : row_out p out r = row_out p df r.
Proof. unfold row_out. by rewrite !has_column_out. Qed.

Lemma kept_out r : kept p out (row_out p df r) = true.
Proof.
  unfold kept. rewrite has_column_out by done.
  destruct (has_column "FIREYEAR" df) eqn:HFY; [|done].
  unfold year_of. by rewrite row_out_FIREYEAR.
Qed.

Lemma castable_out : castable p out = true.
Proof.
  unfold castable. rewrite has_column_out by done.
  destruct (has_column "FIREYEAR" df) eqn:HFY; [|done]. cbn [negb orb].
  apply forallb_forall. intros r' Hr'.
  apply filter_In in Hr' as [Hr' _].
  apply list_elem_of_In, list_elem_of_fmap in Hr' as (r & -> & _).
  unfold year_of. by rewrite row_out_FIREYEAR.
Qed.

Lemma clean_out : clean_and_prepare_data p (Some out) = Returns (Some out).
Proof.
  rewrite clean_returns by apply castable_out.
  do 2 f_equal. symmetry. apply DataFrame_eq.
  - symmetry. apply columns_out_idem.
  - change (rows out) with (row_out p df <$> List.filter (kept p df) (rows df)).
    rewrite (filter_fmap (row_out p df) (kept p out)).
    rewrite (filter_ext_bool (λ r, kept p out (row_out p df r)) (λ _, true))
      by apply kept_out.
    rewrite filter_true, <- list_fmap_compose.
    apply list_fmap_ext. intros _ r _. cbn.
    by rewrite row_out_out, row_out_idem.
Qed.

End Idempotence.

(** C8: whatever a call returns, a second call on it returns the same:
    no record is dropped and every column is recomputed to the value it
    has. *)
Theorem clean_and_prepare_data_idempotent
    (p : string → option float64) (gdf out : option DataFrame) :
  clean_and_prepare_data p gdf = Returns out →
  clean_and_prepare_data p out = Returns out.
Proof.
  destruct gdf as [df|]; [|by intros [= <-]].
  rewrite clean_rowwise. destruct (castable p df); [|done].
  intros [= <-]. apply clean_out.
Qed.

(** ** Worked inputs *)

(** C2, at a record whose acreage is not a number: the prepared record has
    the numeric [total_acres] 0 but a missing [fire_size_category], because
    0 is the excluded lower edge of the first bin. *)
Theorem zero_acres_without_size_category :
  clean_and_prepare_data Reader.str_to_float
    (Some (frame3 (VStr "bad") (VStr "2020") (VStr "Arson")))
  = Returns (Some
      {| columns := prepared_columns;
         rows := [ {[ "TOTALACRES" := VNum (Fin 0);
                      "STATCAUSE" := VStr "Arson";
                      "FIREYEAR" := VNum (Fin 2020);
                      "CAUSE_CATEGORY" := VStr "Human";
                      "FIRE_SIZE_CATEGORY" := VNum NaN ]} ] |}).
Proof. vm_compute. reflexivity. Qed.

(** The pipeline consults the string conversion only on the cells of the
    acreage and year columns. *)
Lemma clean_ext (p p' : string → option float64) (df : DataFrame) :
  (∀ r, r ∈ rows df →
        to_numeric p (cell "TOTALACRES" r) = to_numeric p' (cell "TOTALACRES" r)
        ∧ to_numeric p (cell "FIREYEAR" r) = to_numeric p' (cell "FIREYEAR" r)) →
  clean_and_prepare_data p (Some df) = clean_and_prepare_data p' (Some df).
Proof.
  intros Hagree. rewrite !clean_rowwise.
  assert (Hyear : ∀ r, r ∈ rows df → year_of p r = year_of p' r).
  { intros r Hr. by apply Hagree. }
  assert (Hkept : List.filter (kept p df) (rows df) = List.filter (kept p' df) (rows df)).
  { apply filter_ext_in. intros r Hr. unfold kept.
    by rewrite Hyear by by apply list_elem_of_In. }
  assert (Hin : ∀ r, In r (List.filter (kept p' df) (rows df)) → r ∈ rows df).
  { intros r Hr. apply filter_In in Hr as [Hr _]. by apply list_elem_of_In. }
  unfold castable. rewrite Hkept.
  rewrite (forallb_ext_in (λ r, is_finite (year_of p r))
             (λ r, is_finite (year_of p' r))).
  2:{ intros r Hr. by rewrite Hyear by by apply Hin. }
  destruct (_ || _); [|done]. do 3 f_equal.
  apply Forall_fmap_ext_1, List.Forall_forall. intros r Hr.
  apply Hin in Hr.
  unfold row_out, row_year, row_acres, year_int, acres_cell.
  destruct (has_column "TOTALACRES" df), (has_column "FIREYEAR" df); try done.
  all: unfold year_of; cells; destruct (Hagree r Hr) as [E1 E2];
    by rewrite ?E1, ?E2.
Qed.

(** C4, as the code has it: of the two records of the example the one with
    the unreadable year is dropped, and the other keeps its cause: the
    output is the single record with total_acres 12.5, cause "Lightning",
    cause_category "Natural", fire_size_category Medium and year 2020. *)
Theorem spec_example_prepared (p : string → option float64) :
  p "12.5" = Some (Fin (25 # 2)) →
  p "2020" = Some (Fin 2020) →
  p "bad" = None →
  p "x" = None →
  clean_and_prepare_data p (Some spec_example) = Returns (Some spec_example_out).
Proof.
  intros H1 H2 H3 H4.
  rewrite (clean_ext p Reader.str_to_float); [by vm_compute|].
  intros r Hr. cbn [rows spec_example] in Hr.
  assert (cell "TOTALACRES" spec_row1 = VStr "12.5") as E1 by by vm_compute.
  assert (cell "FIREYEAR" spec_row1 = VStr "2020") as E2 by by vm_compute.
  assert (cell "TOTALACRES" spec_row2 = VStr "bad") as E3 by by vm_compute.
  assert (cell "FIREYEAR" spec_row2 = VStr "x") as E4 by by vm_compute.
  apply elem_of_cons in Hr as [->|Hr]; [|apply list_elem_of_singleton in Hr as ->].
  - rewrite E1, E2. cbn [to_numeric]. rewrite H1, H2. by vm_compute.
  - rewrite E3, E4. cbn [to_numeric]. rewrite H3, H4. by vm_compute.
Qed.

Lemma spec_example_prepared_witness :
  clean_and_prepare_data Reader.str_to_float (Some spec_example)
  = Returns (Some spec_example_out).
Proof. apply (spec_example_prepared Reader.str_to_float); reflexivity. Defined.

(** The example's output record is not the one the claim gives: its cause
    is still "Lightning" and its category "Natural". *)
Lemma spec_example_claimed_cex :
  ∃ out,
    clean_and_prepare_data Reader.str_to_float (Some spec_example)
    = Returns (Some out)
    ∧ rows out ≠ [spec_example_claimed]
    ∧ (cell "STATCAUSE" <$> rows out) = [VStr "Lightning"]
    ∧ (cell "CAUSE_CATEGORY" <$> rows out) = [VStr "Natural"].
Proof.
  exists spec_example_out. split; [by vm_compute|].
  split; [|split; by vm_compute].
  intros H. apply (f_equal (fmap (cell "STATCAUSE"))) in H.
  vm_compute in H. discriminate H.
Qed.

(** A negative acreage stays negative. *)
Lemma negative_acres_cex :
  clean_and_prepare_data Reader.str_to_float
    (Some (frame3 (VStr "-5") (VStr "2020") (VStr "Arson")))
  = Returns (Some
      {| columns := prepared_columns;
         rows := [ {[ "TOTALACRES" := VNum (Fin (-5));
                      "STATCAUSE" := VStr "Arson";
                      "FIREYEAR" := VNum (Fin 2020);
                      "CAUSE_CATEGORY" := VStr "Human";
                      "FIRE_SIZE_CATEGORY" := VNum NaN ]} ] |})
  ∧ ¬ (0 <= -5)%Q.
Proof. split; [by vm_compute|]. intros H. by vm_compute in H. Qed.

(** An empty cause stays empty, and its category is "Other". *)
Lemma empty_cause_cex :
  clean_and_prepare_data Reader.str_to_float
    (Some (frame3 (VNum (Fin 3)) (VNum (Fin 2020)) (VStr "")))
  = Returns (Some
      {| columns := prepared_columns;
         rows := [ {[ "TOTALACRES" := VNum (Fin 3);
                      "STATCAUSE" := VStr "";
                      "FIREYEAR" := VNum (Fin 2020);
                      "CAUSE_CATEGORY" := VStr "Other";
                      "FIRE_SIZE_CATEGORY" := VStr Small ]} ] |}).
Proof. by vm_compute. Qed.

(** A year with a fraction, on either side of zero. *)
Example fractional_year_example :
  clean_and_prepare_data Reader.str_to_float
    (Some {| columns := ["FIREYEAR"];
             rows := [ {[ "FIREYEAR" := VStr "2020.7" ]};
                       {[ "FIREYEAR" := VStr "-2020.7" ]};
                       {[ "FIREYEAR" := VStr "20x" ]} ] |})
  = Returns (Some
      {| columns := ["FIREYEAR"];
         rows := [ {[ "FIREYEAR" := VNum (Fin 2020) ]};
                   {[ "FIREYEAR" := VNum (Fin (-2020)) ]} ] |}).
Proof. by vm_compute. Qed.

(** An infinite year makes the call raise. *)
Example infinite_year_raises :
  clean_and_prepare_data Reader.str_to_float
    (Some (frame3 (VNum (Fin 3)) (VStr "inf") (VStr "Arson")))
  = Raises "IntCastingNaNError".
Proof. by vm_compute. Qed.

(** ** The theorems at the example frames *)

Lemma cause_category_by_table_witness :
  ∃ out,
    clean_and_prepare_data Reader.str_to_float (Some cause_example)
    = Returns (Some out)
    ∧ Forall2 (λ r r',
         (cell "STATCAUSE" r = VNone ∨ cell "STATCAUSE" r = VNum NaN →
          cell "STATCAUSE" r' = VStr "Unknown"
          ∧ cell "CAUSE_CATEGORY" r' = VStr "Unknown")
         ∧ (∀ s, cell "STATCAUSE" r = VStr s → cell "STATCAUSE" r' = VStr s)
         ∧ cell "CAUSE_CATEGORY" r'
           = VStr (cause_category_spec (cell "STATCAUSE" r')))
        (List.filter (kept Reader.str_to_float cause_example) (rows cause_example))
        (rows out).
Proof.
  apply (cause_category_by_table Reader.str_to_float cause_example);
    vm_compute; reflexivity.
Defined.

(** The three records of the cause example after preparation: the missing
    cause is Unknown/Unknown, the unmapped one Other, lightning Natural. *)
Example cause_example_prepared :
  clean_and_prepare_data Reader.str_to_float (Some cause_example)
  = Returns (Some
      {| columns := ["FIREYEAR"; "STATCAUSE"; "CAUSE_CATEGORY"];
         rows := [ {[ "FIREYEAR" := VNum (Fin 2020); "STATCAUSE" := VStr "Unknown";
                      "CAUSE_CATEGORY" := VStr "Unknown" ]};
                   {[ "FIREYEAR" := VNum (Fin 2020); "STATCAUSE" := VStr "Meteor";
                      "CAUSE_CATEGORY" := VStr "Other" ]};
                   {[ "FIREYEAR" := VNum (Fin 2021); "STATCAUSE" := VStr "Lightning";
                      "CAUSE_CATEGORY" := VStr "Natural" ]} ] |}).
Proof. by vm_compute. Qed.

Lemma total_acres_coerced_witness :
  ∃ out,
    clean_and_prepare_data Reader.str_to_float (Some spec_example)
    = Returns (Some out)
    ∧ Forall2 (λ r r',
         ∃ x, cell "TOTALACRES" r' = VNum x
              ∧ x ≠ NaN
              ∧ (to_numeric Reader.str_to_float (cell "TOTALACRES" r) = NaN
                 → x = Fin 0)
              ∧ (to_numeric Reader.str_to_float (cell "TOTALACRES" r) ≠ NaN
                 → x = to_numeric Reader.str_to_float (cell "TOTALACRES" r)))
        (List.filter (kept Reader.str_to_float spec_example) (rows spec_example))
        (rows out).
Proof.
  apply (total_acres_coerced Reader.str_to_float spec_example);
    vm_compute; reflexivity.
Defined.

Lemma missing_cause_defaulted_witness :
  ∃ out,
    clean_and_prepare_data Reader.str_to_float
      (Some (frame3 (VNum (Fin 3)) (VNum (Fin 2020)) VNone))
    = Returns (Some out)
    ∧ Forall2 (λ r r',
         isna (cell "STATCAUSE" r) = true →
         cell "STATCAUSE" r' = VStr "Unknown"
         ∧ cell "CAUSE_CATEGORY" r' = VStr "Unknown")
        (List.filter
           (kept Reader.str_to_float (frame3 (VNum (Fin 3)) (VNum (Fin 2020)) VNone))
           (rows (frame3 (VNum (Fin 3)) (VNum (Fin 2020)) VNone)))
        (rows out).
Proof.
  apply (missing_cause_defaulted Reader.str_to_float
           (frame3 (VNum (Fin 3)) (VNum (Fin 2020)) VNone));
    vm_compute; reflexivity.
Defined.

Lemma year_integer_or_dropped_witness :
  ∃ out,
    clean_and_prepare_data Reader.str_to_float (Some spec_example)
    = Returns (Some out)
    ∧ rows out
      = row_out Reader.str_to_float spec_example
        <$> List.filter
              (λ r, notna (VNum (to_numeric Reader.str_to_float (cell "FIREYEAR" r))))
              (rows spec_example)
    ∧ Forall (λ r', ∃ z : Z,
                (int64_min ≤ z ≤ int64_max)%Z
                ∧ cell "FIREYEAR" r' = VNum (Fin (inject_Z z)))
        (rows out).
Proof.
  apply (year_integer_or_dropped Reader.str_to_float spec_example);
    vm_compute; reflexivity.
Defined.

Lemma fractional_year_truncated_witness :
  ∃ out,
    clean_and_prepare_data Reader.str_to_float
      (Some (frame3 (VNum (Fin 3)) (VStr "2020.7") (VStr "Arson")))
    = Returns (Some out)
    ∧ rows out
      = row_out Reader.str_to_float
          (frame3 (VNum (Fin 3)) (VStr "2020.7") (VStr "Arson"))
        <$> List.filter
              (kept Reader.str_to_float
                 (frame3 (VNum (Fin 3)) (VStr "2020.7") (VStr "Arson")))
              (rows (frame3 (VNum (Fin 3)) (VStr "2020.7") (VStr "Arson")))
    ∧ ∀ r q,
        to_numeric Reader.str_to_float (cell "FIREYEAR" r) = Fin q →
        (int64_min ≤ Qtruncate q ≤ int64_max)%Z →
        kept Reader.str_to_float
          (frame3 (VNum (Fin 3)) (VStr "2020.7") (VStr "Arson")) r = true
        ∧ cell "FIREYEAR"
            (row_out Reader.str_to_float
               (frame3 (VNum (Fin 3)) (VStr "2020.7") (VStr "Arson")) r)
          = VNum (Fin (inject_Z (Qtruncate q)))
        ∧ ((0 <= q)%Q →
           (inject_Z (Qtruncate q) <= q)%Q ∧ (q < inject_Z (Qtruncate q + 1))%Q)
        ∧ ((q <= 0)%Q →
           (inject_Z (Qtruncate q - 1) < q)%Q ∧ (q <= inject_Z (Qtruncate q))%Q).
Proof.
  apply (fractional_year_truncated Reader.str_to_float
           (frame3 (VNum (Fin 3)) (VStr "2020.7") (VStr "Arson")));
    vm_compute; reflexivity.
Defined.

Lemma clean_and_prepare_data_idempotent_witness :
  clean_and_prepare_data Reader.str_to_float (Some spec_example_out)
  = Returns (Some spec_example_out).
Proof.
  apply (clean_and_prepare_data_idempotent Reader.str_to_float
           (Some spec_example) (Some spec_example_out)).
  vm_compute. reflexivity.
Defined.

(** ** The map's sampling step *)

Lemma first_positions_length (g : unit) (len n : nat) :
  (n ≤ len)%nat → length (first_positions g len n).1 = n.
Proof. intros _. apply length_seq. Qed.

Lemma first_positions_range (g : unit) (len n : nat) :
  (n ≤ len)%nat → Forall (λ i, (i < len)%nat) (first_positions g len n).1.
Proof.
  intros Hn. apply Forall_forall. intros i Hi.
  apply elem_of_seq in Hi. cbn in Hi. lia.
Qed.

Lemma first_positions_distinct (g : unit) (len n : nat) :
  (n ≤ len)%nat → NoDup (first_positions g len n).1.
Proof. intros _. apply NoDup_seq. Qed.

Section SamplingProperties.

Variable rng : Type.
Variable RandomState : Z → rng.
Variable choice : rng → nat → nat → list nat * rng.

(** What [choice(len, size=n, replace=False)] promises when [n] is at
    most [len]: [n] distinct positions below [len]. *)
Hypothesis choice_length :
  ∀ g len n, (n ≤ len)%nat → length (choice g len n).1 = n.
Hypothesis choice_range :
  ∀ g len n, (n ≤ len)%nat → Forall (λ i, (i < len)%nat) (choice g len n).1.
Hypothesis choice_distinct :
  ∀ g len n, (n ≤ len)%nat → NoDup (choice g len n).1.

Lemma take_rows_returns (locs : list nat) (df : DataFrame) :
  Forall (λ i, (i < length (rows df))%nat) locs →
  ∃ out, take_rows locs df = Returns out
         ∧ columns out = columns df
         ∧ Forall2 (λ i r, rows df !! i = Some r) locs (rows out).
Proof.
  intros Hlocs. unfold take_rows.
  destruct (mapM (λ i, rows df !! i) locs) as [rs|] eqn:Hm.
  - apply mapM_Some in Hm. eexists. split; [done|]. split; done.
  - exfalso. apply mapM_None, Exists_exists in Hm as (i & Hi & Hnone).
    rewrite Forall_forall in Hlocs. apply Hlocs in Hi.
    apply lookup_ge_None in Hnone. lia.
Qed.

(** C9: a frame of at most [sample_size] records passes through
    unchanged; a larger one is replaced by [sample_size] of its records,
    at distinct positions chosen by a generator seeded with 42, so the
    outcome is the same whatever the state of the process-wide generator,
    which the step leaves as it found it. *)
Theorem sample_for_map_deterministic
    (sample_size : nat) (global : rng) (filtered_df : DataFrame) :
  ((length (rows filtered_df) ≤ sample_size)%nat →
     sample_for_map rng RandomState choice sample_size global filtered_df
     = (Returns filtered_df, global))
  ∧ ((sample_size < length (rows filtered_df))%nat →
     ∃ out locs,
       sample_for_map rng RandomState choice sample_size global filtered_df
       = (Returns out, global)
       ∧ locs = (choice (RandomState 42) (length (rows filtered_df)) sample_size).1
       ∧ NoDup locs
       ∧ Forall2 (λ i r, rows filtered_df !! i = Some r) locs (rows out)
       ∧ columns out = columns filtered_df
       ∧ length (rows out) = sample_size
       ∧ ∀ global',
           (sample_for_map rng RandomState choice sample_size global' filtered_df).1
           = Returns out).
Proof.
  unfold sample_for_map, sample. split; intros Hlen.
  - apply Nat.ltb_ge in Hlen. by rewrite Hlen.
  - pose proof Hlen as Hlt. apply Nat.ltb_lt in Hlt. rewrite Hlt.
    assert (sample_size ≤ length (rows filtered_df))%nat as Hle by lia.
    destruct (take_rows_returns
                (choice (RandomState 42) (length (rows filtered_df)) sample_size).1
                filtered_df) as (out & Hout & Hcols & Hrows);
      [by apply choice_range|].
    exists out, (choice (RandomState 42) (length (rows filtered_df)) sample_size).1.
    rewrite Hout. repeat split; try done.
    + by apply choice_distinct.
    + apply Forall2_length in Hrows. rewrite <- Hrows. by apply choice_length.
Qed.

End SamplingProperties.

Lemma sample_for_map_deterministic_witness :
     ∃ out locs,
       sample_for_map unit (λ _, ()) first_positions 2 () three_rows
       = (Returns out, ())
       ∧ locs = (first_positions () (length (rows three_rows)) 2).1
       ∧ NoDup locs
       ∧ Forall2 (λ i r, rows three_rows !! i = Some r) locs (rows out)
       ∧ columns out = columns three_rows
       ∧ length (rows out) = 2
       ∧ ∀ global',
           (sample_for_map unit (λ _, ()) first_positions 2 global' three_rows).1
           = Returns out.
Proof.
  apply (sample_for_map_deterministic unit (λ _, ()) first_positions
           first_positions_length first_positions_range first_positions_distinct
           2 () three_rows).
  cbn. lia.
Defined.

(** The sampling step on the three-record frame, asked for two. *)
Example sample_for_map_example :
  sample_for_map unit (λ _, ()) first_positions 2 () three_rows
  = (Returns {| columns := ["FIREYEAR"];
                rows := [ {[ "FIREYEAR" := VNum (Fin 2019) ]};
                          {[ "FIREYEAR" := VNum (Fin 2020) ]} ] |}, ())
  ∧ sample_for_map unit (λ _, ()) first_positions 5 () three_rows
    = (Returns three_rows, ()).
Proof. split; by vm_compute. Qed.

(** * Further properties of the dashboard *)

(** ** [clean_and_prepare_data]: failure, columns, untouched cells *)

Lemma kept_infinite (p : string → option float64) (df : DataFrame)
    (r : gmap string value) :
  is_finite (year_of p r) = false → year_of p r ≠ NaN → kept p df r = true.
Proof.
  intros Hfin Hnan. unfold kept. destruct (has_column "FIREYEAR" df); [|done].
  by destruct (year_of p r).
Qed.

Lemma forallb_false_In {A} (P : A → bool) (l : list A) :
  forallb P l = false → ∃ x, In x l ∧ P x = false.
Proof.
  induction l as [|a l IH]; [done|]. cbn. intros H.
  destruct (P a) eqn:Ha.
  - destruct (IH H) as (x & Hx & HP). exists x. auto.
  - exists a. auto.
Qed.

(** The call raises exactly when the frame has a year column and the year
    of some record coerces to an infinity; the exception is the one of
    [.astype(int)]. *)
Theorem clean_raises_iff_infinite_year
    (p : string → option float64) (df : DataFrame) (e : string) :
  clean_and_prepare_data p (Some df) = Raises e
  ↔ e = "IntCastingNaNError"
    ∧ has_column "FIREYEAR" df = true
    ∧ ∃ r, r ∈ rows df
           ∧ (to_numeric p (cell "FIREYEAR" r) = PInf
              ∨ to_numeric p (cell "FIREYEAR" r) = NInf).
Proof.
  rewrite clean_rowwise. unfold castable.
  destruct (has_column "FIREYEAR" df) eqn:HFY; cbn [negb orb].
  - destruct (forallb _ _) eqn:Hall.
    + split; [done|]. intros (_ & _ & r & Hr & Hinf). exfalso.
      rewrite forallb_forall in Hall.
      assert (is_finite (year_of p r) = false) as Hfin.
      { unfold year_of. by destruct Hinf as [-> | ->]. }
      rewrite Hall in Hfin; [done|].
      apply filter_In. split; [by apply list_elem_of_In|].
      apply kept_infinite; [done|].
      unfold year_of. by destruct Hinf as [-> | ->].
    + split; [|by intros (-> & _)]. intros [= <-]. split; [done|]. split; [done|].
      apply forallb_false_In in Hall as (r & Hin & Hfin). exists r.
      apply filter_In in Hin as [Hin Hk]. split; [by apply list_elem_of_In|].
      unfold kept in Hk. rewrite HFY in Hk. unfold year_of in *.
      destruct (to_numeric p (cell "FIREYEAR" r)); cbn in *; auto; done.
  - split; [done|]. by intros (_ & ? & _).
Qed.

Lemma row_out_lookup_other (p : string → option float64) (df : DataFrame)
    (c : string) (r : gmap string value) :
  c ≠ "TOTALACRES" → c ≠ "FIREYEAR" → c ≠ "STATCAUSE" →
  c ≠ "CAUSE_CATEGORY" → c ≠ "FIRE_SIZE_CATEGORY" →
  row_out p df r !! c = r !! c.
Proof.
  intros H1 H2 H3 H4 H5. unfold row_out, row_size, row_cause, row_year, row_acres.
  destruct (has_column "TOTALACRES" df), (has_column "STATCAUSE" df),
    (has_column "FIREYEAR" df); cbn zeta;
    repeat (rewrite lookup_insert_ne by done); reflexivity.
Qed.

(** Every column other than the three cleaned and the two derived ones
    (the state name, the geometry, ...) comes out of the pipeline cell for
    cell as it went in, for each record that is kept. *)
Theorem clean_keeps_other_columns
    (p : string → option float64) (df : DataFrame) (c : string) :
  castable p df = true →
  c ∉ ["TOTALACRES"; "FIREYEAR"; "STATCAUSE"; "CAUSE_CATEGORY"; "FIRE_SIZE_CATEGORY"] →
  ∃ out,
    clean_and_prepare_data p (Some df) = Returns (Some out)
    ∧ (has_column c out = has_column c df)
    ∧ Forall2 (λ r r', r' !! c = r !! c)
        (List.filter (kept p df) (rows df)) (rows out).
Proof.
  intros Hc Hnot. rewrite !not_elem_of_cons in Hnot.
  destruct Hnot as (H1 & H2 & H3 & H4 & H5 & _).
  eexists. split; [by apply clean_returns|]. split.
  - unfold has_column. cbn [columns]. apply bool_decide_ext.
    by apply elem_of_columns_out.
  - cbn [rows]. apply Forall2_prepared. intros r _ _.
    by apply row_out_lookup_other.
Qed.

Lemma clean_keeps_other_columns_witness :
  ∃ out,
    clean_and_prepare_data Reader.str_to_float
      (Some {| columns := ["FIREYEAR"; "STATENAME"];
               rows := [ {[ "FIREYEAR" := VStr "2020"; "STATENAME" := VStr "Idaho" ]} ] |})
    = Returns (Some out)
    ∧ (has_column "STATENAME" out
       = has_column "STATENAME"
           {| columns := ["FIREYEAR"; "STATENAME"];
              rows := [ {[ "FIREYEAR" := VStr "2020"; "STATENAME" := VStr "Idaho" ]} ] |})
    ∧ Forall2 (λ r r', r' !! "STATENAME" = r !! "STATENAME")
        (List.filter
           (kept Reader.str_to_float
              {| columns := ["FIREYEAR"; "STATENAME"];
                 rows := [ {[ "FIREYEAR" := VStr "2020"; "STATENAME" := VStr "Idaho" ]} ] |})
           (rows {| columns := ["FIREYEAR"; "STATENAME"];
                    rows := [ {[ "FIREYEAR" := VStr "2020"; "STATENAME" := VStr "Idaho" ]} ] |}))
        (rows out).
Proof.
  apply (clean_keeps_other_columns Reader.str_to_float
           {| columns := ["FIREYEAR"; "STATENAME"];
              rows := [ {[ "FIREYEAR" := VStr "2020"; "STATENAME" := VStr "Idaho" ]} ] |}
           "STATENAME").
  - vm_compute. reflexivity.
  - intros Hin. repeat (apply elem_of_cons in Hin as [Hin|Hin]; [discriminate Hin|]).
    by apply elem_of_nil in Hin.
Defined.

Lemma NoDup_add_column (c : string) (cs : list string) :
  NoDup cs → NoDup (add_column c cs).
Proof.
  intros Hcs. unfold add_column. case_bool_decide as Hc; [done|].
  apply NoDup_app. split; [done|]. split; [|apply NoDup_singleton].
  intros x Hx Hx'. apply list_elem_of_singleton in Hx' as ->. done.
Qed.

Lemma add_column_app (c : string) (cs : list string) :
  add_column c cs = (cs ++ if bool_decide (c ∈ cs) then [] else [c])%list.
Proof. unfold add_column. case_bool_decide; [by rewrite app_nil_r|done]. Qed.

(** The columns of the result are the columns of the input, in their
    order, followed by the derived columns that were not there yet: the
    cause category when there is a cause column, the size category when
    there is an acreage column.  No column is dropped or duplicated. *)
Theorem clean_columns (p : string → option float64) (df : DataFrame) :
  castable p df = true →
  ∃ out new,
    clean_and_prepare_data p (Some df) = Returns (Some out)
    ∧ columns out = (columns df ++ new)%list
    ∧ (∀ c, c ∈ new ↔
            (c = "CAUSE_CATEGORY" ∧ has_column "STATCAUSE" df = true
             ∧ has_column "CAUSE_CATEGORY" df = false)
            ∨ (c = "FIRE_SIZE_CATEGORY" ∧ has_column "TOTALACRES" df = true
               ∧ has_column "FIRE_SIZE_CATEGORY" df = false))
    ∧ (NoDup (columns df) → NoDup (columns out)).
Proof.
  intros Hc.
  exists {| columns := columns_out df;
            rows := row_out p df <$> List.filter (kept p df) (rows df) |}.
  exists ((if has_column "STATCAUSE" df && negb (has_column "CAUSE_CATEGORY" df)
           then ["CAUSE_CATEGORY"] else [])
          ++ (if has_column "TOTALACRES" df && negb (has_column "FIRE_SIZE_CATEGORY" df)
              then ["FIRE_SIZE_CATEGORY"] else []))%list.
  split; [by apply clean_returns|]. cbn [columns]. split; [|split].
  - unfold columns_out, has_column.
    destruct (bool_decide ("STATCAUSE" ∈ columns df)),
      (bool_decide ("TOTALACRES" ∈ columns df)); cbn [andb];
      rewrite ?add_column_app.
    + rewrite <- app_assoc. do 2 f_equal.
      * by destruct (bool_decide ("CAUSE_CATEGORY" ∈ columns df)).
      * assert (bool_decide ("FIRE_SIZE_CATEGORY"
                   ∈ (columns df ++ (if bool_decide ("CAUSE_CATEGORY" ∈ columns df)
                                      then [] else ["CAUSE_CATEGORY"]))%list)
                = bool_decide ("FIRE_SIZE_CATEGORY" ∈ columns df)) as ->.
        { apply bool_decide_ext. rewrite elem_of_app.
          destruct (bool_decide ("CAUSE_CATEGORY" ∈ columns df));
            rewrite ?elem_of_nil, ?list_elem_of_singleton; intuition discriminate. }
        by destruct (bool_decide ("FIRE_SIZE_CATEGORY" ∈ columns df)).
    + rewrite app_nil_r. f_equal.
      by destruct (bool_decide ("CAUSE_CATEGORY" ∈ columns df)).
    + cbn [app]. f_equal.
      by destruct (bool_decide ("FIRE_SIZE_CATEGORY" ∈ columns df)).
    + by rewrite app_nil_r.
  - intros c. rewrite elem_of_app.
    destruct (has_column "STATCAUSE" df), (has_column "CAUSE_CATEGORY" df),
      (has_column "TOTALACRES" df), (has_column "FIRE_SIZE_CATEGORY" df);
      cbn [andb negb]; rewrite ?elem_of_nil, ?list_elem_of_singleton;
      intuition (try discriminate; try congruence).
  - intros Hnd. unfold columns_out.
    destruct (has_column "STATCAUSE" df), (has_column "TOTALACRES" df);
      auto using NoDup_add_column.
Qed.

Lemma clean_columns_witness :
  ∃ out new,
    clean_and_prepare_data Reader.str_to_float (Some spec_example)
    = Returns (Some out)
    ∧ columns out = (columns spec_example ++ new)%list
    ∧ (∀ c, c ∈ new ↔
            (c = "CAUSE_CATEGORY" ∧ has_column "STATCAUSE" spec_example = true
             ∧ has_column "CAUSE_CATEGORY" spec_example = false)
            ∨ (c = "FIRE_SIZE_CATEGORY" ∧ has_column "TOTALACRES" spec_example = true
               ∧ has_column "FIRE_SIZE_CATEGORY" spec_example = false))
    ∧ (NoDup (columns spec_example) → NoDup (columns out)).
Proof.
  apply (clean_columns Reader.str_to_float spec_example).
  vm_compute. reflexivity.
Defined.

(** Without a year column nothing can fail and nothing is dropped: the
    call returns one prepared record for each input record, whatever the
    cells hold; an empty frame comes out empty. *)
Theorem clean_without_year_column (p : string → option float64) (df : DataFrame) :
  has_column "FIREYEAR" df = false →
  ∃ out,
    clean_and_prepare_data p (Some df) = Returns (Some out)
    ∧ rows out = row_out p df <$> rows df
    ∧ length (rows out) = length (rows df).
Proof.
  intros HFY. eexists. split.
  - apply clean_returns. unfold castable. by rewrite HFY.
  - cbn [rows].
    rewrite (filter_ext_bool (kept p df) (λ _, true)), filter_true.
    + split; [done|]. apply length_fmap.
    + intros r. unfold kept. by rewrite HFY.
Qed.

Lemma clean_without_year_column_witness :
  ∃ out,
    clean_and_prepare_data Reader.str_to_float
      (Some {| columns := ["TOTALACRES"]; rows := [ {[ "TOTALACRES" := VStr "inf" ]} ] |})
    = Returns (Some out)
    ∧ rows out
      = row_out Reader.str_to_float
          {| columns := ["TOTALACRES"]; rows := [ {[ "TOTALACRES" := VStr "inf" ]} ] |}
        <$> rows {| columns := ["TOTALACRES"];
                    rows := [ {[ "TOTALACRES" := VStr "inf" ]} ] |}
    ∧ length (rows out)
      = length (rows {| columns := ["TOTALACRES"];
                        rows := [ {[ "TOTALACRES" := VStr "inf" ]} ] |}).
Proof.
  apply (clean_without_year_column Reader.str_to_float
           {| columns := ["TOTALACRES"]; rows := [ {[ "TOTALACRES" := VStr "inf" ]} ] |}).
  vm_compute. reflexivity.
Defined.

(** ** The derived categories *)

(** The size category is missing exactly for an acreage that is NaN,
    zero or negative; every other acreage, the positive infinity
    included, gets one of the five labels. *)
Theorem fire_size_category_missing_iff (x : float64) :
  (fire_size_category x = VNum NaN
   ↔ x = NaN ∨ x = NInf ∨ ∃ q, x = Fin q ∧ (q <= 0)%Q)
  ∧ (fire_size_category x = VNum NaN
     ∨ ∃ l, l ∈ size_labels ∧ fire_size_category x = VStr l).
Proof.
  destruct x as [q| | |].
  - rewrite fire_size_category_Fin. split.
    + split.
      * intros H. right. right. exists q. split; [done|].
        repeat (destruct (Qlt_le_dec _ q); try discriminate H). done.
      * intros [H|[H|(q' & [= <-] & Hq)]]; try discriminate H.
        destruct (Qlt_le_dec 0 q); [lra|done].
    + repeat (destruct (Qlt_le_dec _ q); [|first [by left | right; eexists;
        split; [|reflexivity]; unfold size_labels; set_solver]]).
      right. eexists. split; [|reflexivity]. unfold size_labels. set_solver.
  - split.
    + split; [by vm_compute|]. intros [H|[H|(q & H & _)]]; discriminate H.
    + right. exists Mega. split; [unfold size_labels; set_solver|by vm_compute].
  - split; [|by left]. split; auto.
  - split; [|by left]. split; auto.
Qed.

(** A larger fire never gets a smaller category: among positive
    acreages the label's position in the list of labels grows with the
    acreage. *)
Theorem fire_size_category_monotone (q q' : Q) :
  (0 < q)%Q → (q <= q')%Q →
  ∃ (i j : nat) (l l' : string),
    size_labels !! i = Some l ∧ size_labels !! j = Some l'
    ∧ fire_size_category (Fin q) = VStr l
    ∧ fire_size_category (Fin q') = VStr l'
    ∧ (i ≤ j)%nat.
Proof.
  intros Hq Hle. rewrite !fire_size_category_Fin.
  destruct (Qlt_le_dec 0 q); [|lra]. destruct (Qlt_le_dec 0 q'); [|lra].
  destruct (Qlt_le_dec 10 q), (Qlt_le_dec 10 q'); try lra;
  destruct (Qlt_le_dec 100 q), (Qlt_le_dec 100 q'); try lra;
  destruct (Qlt_le_dec 1000 q), (Qlt_le_dec 1000 q'); try lra;
  destruct (Qlt_le_dec 10000 q), (Qlt_le_dec 10000 q'); try lra.
  all: first
    [ by exists 0%nat, 0%nat, Small, Small
    | by (exists 0%nat, 1%nat, Small, Medium; repeat split; lia)
    | by (exists 0%nat, 2%nat, Small, Large; repeat split; lia)
    | by (exists 0%nat, 3%nat, Small, VeryLarge; repeat split; lia)
    | by (exists 0%nat, 4%nat, Small, Mega; repeat split; lia)
    | by exists 1%nat, 1%nat, Medium, Medium
    | by (exists 1%nat, 2%nat, Medium, Large; repeat split; lia)
    | by (exists 1%nat, 3%nat, Medium, VeryLarge; repeat split; lia)
    | by (exists 1%nat, 4%nat, Medium, Mega; repeat split; lia)
    | by exists 2%nat, 2%nat, Large, Large
    | by (exists 2%nat, 3%nat, Large, VeryLarge; repeat split; lia)
    | by (exists 2%nat, 4%nat, Large, Mega; repeat split; lia)
    | by exists 3%nat, 3%nat, VeryLarge, VeryLarge
    | by (exists 3%nat, 4%nat, VeryLarge, Mega; repeat split; lia)
    | by exists 4%nat, 4%nat, Mega, Mega ].
Qed.

Lemma fire_size_category_monotone_witness :
  ∃ (i j : nat) (l l' : string),
    size_labels !! i = Some l ∧ size_labels !! j = Some l'
    ∧ fire_size_category (Fin 10) = VStr l
    ∧ fire_size_category (Fin 10000) = VStr l'
    ∧ (i ≤ j)%nat.
Proof.
  apply (fire_size_category_monotone 10 10000); [reflexivity|discriminate].
Defined.

(** The cause category is never missing: whatever the cell holds it is
    one of the four names; it is "Unknown" only for the cause "Unknown"
    and "Natural" only for "Lightning". *)
Theorem cause_category_range (v : value) :
  (∃ c, c ∈ ["Natural"; "Human"; "Other"; "Unknown"] ∧ cause_category v = VStr c)
  ∧ (cause_category v = VStr "Unknown" ↔ v = VStr "Unknown")
  ∧ (cause_category v = VStr "Natural" ↔ v = VStr "Lightning").
Proof.
  rewrite cause_category_table.
  destruct v as [|x|s|lon lat]; cbn [cause_category_spec];
    try (split; [eexists; split; [|reflexivity]; set_solver|split; split; discriminate]).
  split; [|split].
  - repeat case_bool_decide; eexists; (split; [|reflexivity]);
      rewrite !elem_of_cons; auto 6.
  - split.
    + repeat case_bool_decide; subst; try discriminate; done.
    + intros [= ->]. by vm_compute.
  - split.
    + repeat case_bool_decide; subst; try discriminate; done.
    + intros [= ->]. by vm_compute.
Qed.

(** ** The overview page *)

Lemma rows_above_filter (threshold : Q) (P : gmap string value → bool)
    (rs : list (gmap string value)) :
  (∀ r, In r rs → gt_cell (cell "TOTALACRES" r) threshold = Some (P r)) →
  rows_above threshold rs = Some (List.filter P rs).
Proof.
  induction rs as [|r rs IH]; [done|]. intros H. cbn.
  rewrite (H r) by by left. rewrite IH; [done|].
  intros r' Hr'. apply H. by right.
Qed.

Lemma gt_1000_category (x : float64) :
  gt_cell (VNum x) 1000
  = Some (eq_str (fire_size_category x) VeryLarge
          || eq_str (fire_size_category x) Mega).
Proof.
  destruct x as [q| | |]; try by vm_compute.
  rewrite fire_size_category_Fin. cbn [gt_cell].
  destruct (Qlt_le_dec 1000 q).
  - destruct (Qlt_le_dec 0 q); [|lra]. destruct (Qlt_le_dec 10 q); [|lra].
    destruct (Qlt_le_dec 100 q); [|lra]. by destruct (Qlt_le_dec 10000 q).
  - repeat (destruct (Qlt_le_dec _ q); try lra); done.
Qed.

Lemma gt_10000_category (x : float64) :
  gt_cell (VNum x) 10000 = Some (eq_str (fire_size_category x) Mega).
Proof.
  destruct x as [q| | |]; try by vm_compute.
  rewrite fire_size_category_Fin. cbn [gt_cell].
  destruct (Qlt_le_dec 10000 q).
  - destruct (Qlt_le_dec 0 q); [|lra]. destruct (Qlt_le_dec 10 q); [|lra].
    destruct (Qlt_le_dec 100 q); [|lra]. by destruct (Qlt_le_dec 1000 q); [|lra].
  - repeat (destruct (Qlt_le_dec _ q); try lra); done.
Qed.

(** On a prepared frame with an acreage column the fire severity box
    agrees with the size categories: its large fires are the records
    categorised Very Large or Mega and its mega fires the records
    categorised Mega.  On a prepared frame without records (every year
    was unreadable) the box raises [ZeroDivisionError]. *)
Theorem fire_severity_prepared (p : string → option float64) (df : DataFrame) :
  castable p df = true →
  has_column "TOTALACRES" df = true →
  ∃ out,
    clean_and_prepare_data p (Some df) = Returns (Some out)
    ∧ fire_severity out
      = if (length (rows out) =? 0)%nat
        then Raises "ZeroDivisionError"
        else Returns (Some
               (length (List.filter
                          (λ r, eq_str (cell "FIRE_SIZE_CATEGORY" r) VeryLarge
                                || eq_str (cell "FIRE_SIZE_CATEGORY" r) Mega)
                          (rows out)),
                length (List.filter
                          (λ r, eq_str (cell "FIRE_SIZE_CATEGORY" r) Mega)
                          (rows out)))).
Proof.
  intros Hc HTA. eexists. split; [by apply clean_returns|].
  unfold fire_severity.
  assert (has_column "TOTALACRES"
            {| columns := columns_out df;
               rows := row_out p df <$> List.filter (kept p df) (rows df) |} = true)
    as ->.
  { unfold has_column in *. cbn [columns].
    apply bool_decide_eq_true, elem_of_columns_out; [done..|].
    by apply bool_decide_eq_true in HTA. }
  cbn [rows].
  rewrite (rows_above_filter 1000
             (λ r, eq_str (cell "FIRE_SIZE_CATEGORY" r) VeryLarge
                   || eq_str (cell "FIRE_SIZE_CATEGORY" r) Mega)).
  2:{ intros r' Hr'. apply list_elem_of_In, list_elem_of_fmap in Hr' as (r & -> & _).
      rewrite row_out_FIRE_SIZE_CATEGORY, row_out_TOTALACRES by done.
      apply gt_1000_category. }
  rewrite (rows_above_filter 10000
             (λ r, eq_str (cell "FIRE_SIZE_CATEGORY" r) Mega)).
  2:{ intros r' Hr'. apply list_elem_of_In, list_elem_of_fmap in Hr' as (r & -> & _).
      rewrite row_out_FIRE_SIZE_CATEGORY, row_out_TOTALACRES by done.
      apply gt_10000_category. }
  done.
Qed.

Lemma fire_severity_prepared_witness :
  ∃ out,
    clean_and_prepare_data Reader.str_to_float (Some spec_example)
    = Returns (Some out)
    ∧ fire_severity out
      = if (length (rows out) =? 0)%nat
        then Raises "ZeroDivisionError"
        else Returns (Some
               (length (List.filter
                          (λ r, eq_str (cell "FIRE_SIZE_CATEGORY" r) VeryLarge
                                || eq_str (cell "FIRE_SIZE_CATEGORY" r) Mega)
                          (rows out)),
                length (List.filter
                          (λ r, eq_str (cell "FIRE_SIZE_CATEGORY" r) Mega)
                          (rows out)))).
Proof.
  apply (fire_severity_prepared Reader.str_to_float spec_example);
    vm_compute; reflexivity.
Defined.

(** The box on a frame whose years are all unreadable, and on one with a
    mega fire and a small one. *)
Example fire_severity_examples :
  (∃ out,
     clean_and_prepare_data Reader.str_to_float
       (Some (frame3 (VStr "50") (VStr "unknown") VNone))
     = Returns (Some out)
     ∧ rows out = []
     ∧ fire_severity out = Raises "ZeroDivisionError")
  ∧ fire_severity
      {| columns := ["TOTALACRES"];
         rows := [ {[ "TOTALACRES" := VNum (Fin 10000) ]};
                   {[ "TOTALACRES" := VNum (Fin 10001) ]};
                   {[ "TOTALACRES" := VNum (Fin 0) ]} ] |}
    = Returns (Some (2%nat, 1%nat)).
Proof.
  split; [|by vm_compute].
  eexists. split; [by vm_compute|]. split; by vm_compute.
Qed.

(** ** Python's [int] reads back what [str] writes *)

Lemma pretty_N_char_digit (d : N) :
  (d < 10)%N →
  Reader.is_digit (pretty_N_char d) = true
  ∧ Reader.digit (pretty_N_char d) = Z.of_N d.
Proof.
  intros Hd.
  assert (d = 0 ∨ d = 1 ∨ d = 2 ∨ d = 3 ∨ d = 4 ∨ d = 5 ∨ d = 6 ∨ d = 7
          ∨ d = 8 ∨ d = 9)%N as Hcases by lia.
  repeat (destruct Hcases as [-> | Hcases]; [by vm_compute|]).
  subst d. by vm_compute.
Qed.

Lemma pretty_N_go_chars (P : ascii → bool) (x : N) (s : string) :
  (∀ d, (d < 10)%N → P (pretty_N_char d) = true) →
  Py.forall_chars P s = true →
  Py.forall_chars P (pretty_N_go x s) = true.
Proof.
  intros HP. revert s. induction (N.lt_wf_0 x) as [x _ IH]. intros s Hs.
  assert (x = 0 ∨ 0 < x)%N as [-> | Hx] by lia; [by rewrite pretty_N_go_0|].
  rewrite pretty_N_go_step by done. apply IH; [by apply N.div_lt|].
  cbn. rewrite HP, Hs; [done|]. by apply N.mod_lt.
Qed.

Lemma digits_pretty_N_go (x : N) (s : string) (acc : Z) (b : bool) :
  (0 < x)%N →
  ∃ k : nat,
    Py.digits (pretty_N_go x s) acc b
    = Py.digits s (acc * 10 ^ Z.of_nat k + Z.of_N x)%Z true.
Proof.
  revert s acc b. induction (N.lt_wf_0 x) as [x _ IH]. intros s acc b Hx.
  rewrite pretty_N_go_step by done.
  destruct (pretty_N_char_digit (x `mod` 10)) as [Hdig Hval];
    [by apply N.mod_lt|].
  assert (Z.of_N x = 10 * Z.of_N (x `div` 10) + Z.of_N (x `mod` 10))%Z as Hdm.
  { rewrite (N.div_mod x 10) at 1 by done. lia. }
  destruct (N.eq_0_gt_0_cases (x `div` 10)) as [H0 | Hpos].
  - rewrite H0, pretty_N_go_0. exists 1%nat. cbn [Py.digits].
    rewrite Hdig, Hval. f_equal. rewrite H0 in Hdm. lia.
  - destruct (IH (x `div` 10)%N (N.div_lt x 10 Hx eq_refl)
                (String (pretty_N_char (x `mod` 10)) s) acc b Hpos) as [k Hk].
    exists (S k). rewrite Hk. cbn [Py.digits]. rewrite Hdig, Hval. f_equal.
    rewrite Nat2Z.inj_succ, Z.pow_succ_r by lia. lia.
Qed.

Lemma lstrip_no_space (s : string) :
  Py.forall_chars (λ c, negb (Py.is_space c)) s = true → Py.lstrip s = s.
Proof.
  destruct s as [|c r]; [done|]. cbn. intros H.
  apply andb_true_iff in H as [H _]. by destruct (Py.is_space c).
Qed.

Lemma rstrip_no_space (s : string) :
  Py.forall_chars (λ c, negb (Py.is_space c)) s = true → Py.rstrip s = s.
Proof.
  induction s as [|c r IH]; [done|]. cbn. intros H.
  apply andb_true_iff in H as [Hc Hr]. rewrite IH by done.
  destruct r; [|done]. by destruct (Py.is_space c).
Qed.

Lemma sign_of_digits (s : string) :
  Py.forall_chars Reader.is_digit s = true → Reader.sign s = (false, s).
Proof.
  destruct s as [|c r]; [done|]. cbn [Py.forall_chars]. intros H.
  apply andb_true_iff in H as [H _].
  destruct c as [[] [] [] [] [] [] [] []]; try discriminate H; reflexivity.
Qed.

Lemma int_pretty_pos (x : positive) :
  Py.digits (pretty (N.pos x)) 0 false = Some (Z.pos x)
  ∧ Py.forall_chars Reader.is_digit (pretty (N.pos x)) = true
  ∧ Py.forall_chars (λ c, negb (Py.is_space c)) (pretty (N.pos x)) = true.
Proof.
  unfold pretty, pretty_N. rewrite decide_False by done. split; [|split].
  - destruct (digits_pretty_N_go (N.pos x) "" 0 false) as [k ->]; [done|].
    cbn. f_equal.
  - apply pretty_N_go_chars; [|done]. intros d Hd.
    by apply pretty_N_char_digit.
  - apply pretty_N_go_chars; [|done]. intros d Hd.
    assert (d = 0 ∨ d = 1 ∨ d = 2 ∨ d = 3 ∨ d = 4 ∨ d = 5 ∨ d = 6 ∨ d = 7
            ∨ d = 8 ∨ d = 9)%N as Hcases by lia.
    repeat (destruct Hcases as [-> | Hcases]; [by vm_compute|]).
    subst d. by vm_compute.
Qed.

(** [int(str(n)) == n] for every integer [n]. *)
Lemma int_str (z : Z) : Py.int (Py.str z) = Some z.
Proof.
  unfold Py.int, Py.str. destruct z as [|x|x].
  - by vm_compute.
  - change (pretty (Z.pos x)) with (pretty (N.pos x)).
    destruct (int_pretty_pos x) as (Hd & Hdig & Hsp).
    rewrite lstrip_no_space, rstrip_no_space, sign_of_digits by done.
    by rewrite Hd.
  - change (pretty (Z.neg x)) with (String "-" (pretty (N.pos x))).
    destruct (int_pretty_pos x) as (Hd & Hdig & Hsp).
    assert (Py.forall_chars (λ c, negb (Py.is_space c))
              (String "-" (pretty (N.pos x))) = true) as Hsp'.
    { cbn [Py.forall_chars]. by rewrite Hsp. }
    rewrite lstrip_no_space, rstrip_no_space by done.
    cbn [Reader.sign]. by rewrite Hd.
Qed.

(** ** The spatial page: the size filter *)

Lemma size_mapping_lookups :
  size_mapping !! "All Fires" = None
  ∧ size_mapping !! "Small (<10 acres)" = Some Small
  ∧ size_mapping !! "Medium (10-100)" = Some Medium
  ∧ size_mapping !! "Large (100-1000)" = Some Large
  ∧ size_mapping !! "Very Large (1000-10000)" = Some VeryLarge
  ∧ size_mapping !! "Mega (>10000)" = Some Mega.
Proof. repeat split; by vm_compute. Qed.

Lemma size_option_label (o : string) :
  o ∈ size_options → o ≠ "All Fires" →
  ∃ label, size_mapping !! o = Some label ∧ label ∈ size_labels.
Proof.
  intros Ho Hne. destruct size_mapping_lookups as (_ & H1 & H2 & H3 & H4 & H5).
  unfold size_options in Ho. unfold size_labels.
  repeat (apply elem_of_cons in Ho as [->|Ho]; [first [done | eexists; split;
    [eassumption|rewrite !elem_of_cons; auto 8]]|]).
  by apply elem_of_nil in Ho.
Qed.

(** Every choice the size select box offers is handled: "All Fires"
    leaves the frame as it is, and each other choice is a key of the
    table, mapped to one of the five labels of [pd.cut], so the lookup
    never raises [KeyError] and the filter keeps the records carrying that
    label.  Conversely each label is reached by some choice. *)
Theorem apply_size_filter_offered (o : string) (df : DataFrame) :
  o ∈ size_options →
  (∃ shown,
     apply_size_filter o df = Returns shown
     ∧ columns shown = columns df
     ∧ (o = "All Fires" → shown = df)
     ∧ (o ≠ "All Fires" → has_column "FIRE_SIZE_CATEGORY" df = true →
        ∃ label, label ∈ size_labels
                 ∧ size_mapping !! o = Some label
                 ∧ rows shown
                   = List.filter (λ r, eq_str (cell "FIRE_SIZE_CATEGORY" r) label)
                       (rows df)))
  ∧ (∀ label, label ∈ size_labels →
       ∃ o', o' ∈ size_options ∧ size_mapping !! o' = Some label).
Proof.
  intros Ho. split.
  - unfold apply_size_filter.
    destruct (decide (o = "All Fires")) as [->|Hne].
    + exists df. by rewrite bool_decide_eq_true_2.
    + rewrite bool_decide_eq_false_2 by done. cbn [negb andb].
      destruct (size_option_label o Ho Hne) as (label & Hl & Hin).
      destruct (has_column "FIRE_SIZE_CATEGORY" df).
      * rewrite Hl. eexists. split; [done|]. split; [done|]. split; [done|].
        intros _ _. by exists label.
      * exists df. repeat split; done.
  - intros label Hl. destruct size_mapping_lookups as (_ & H1 & H2 & H3 & H4 & H5).
    unfold size_labels in Hl. unfold size_options.
    repeat (apply elem_of_cons in Hl as [->|Hl]; [eexists; split;
      [|eassumption]; rewrite !elem_of_cons; auto 8|]).
    by apply elem_of_nil in Hl.
Qed.

Lemma apply_size_filter_offered_witness :
  (∃ shown,
     apply_size_filter "Mega (>10000)" spec_example_out = Returns shown
     ∧ columns shown = columns spec_example_out
     ∧ ("Mega (>10000)" = "All Fires" → shown = spec_example_out)
     ∧ ("Mega (>10000)" ≠ "All Fires" →
        has_column "FIRE_SIZE_CATEGORY" spec_example_out = true →
        ∃ label, label ∈ size_labels
                 ∧ size_mapping !! "Mega (>10000)" = Some label
                 ∧ rows shown
                   = List.filter (λ r, eq_str (cell "FIRE_SIZE_CATEGORY" r) label)
                       (rows spec_example_out)))
  ∧ (∀ label, label ∈ size_labels →
       ∃ o', o' ∈ size_options ∧ size_mapping !! o' = Some label).
Proof.
  apply (apply_size_filter_offered "Mega (>10000)" spec_example_out).
  unfold size_options. rewrite !elem_of_cons. auto 8.
Defined.

(** On a prepared frame a size choice other than "All Fires" shows the
    records whose acreage falls in the bin of its label, so a record with
    an acreage of zero (or less) is shown under no such choice. *)
Theorem size_filter_on_prepared (p : string → option float64) (df : DataFrame)
    (o : string) :
  castable p df = true →
  has_column "TOTALACRES" df = true →
  o ∈ size_options →
  o ≠ "All Fires" →
  ∃ out shown label,
    clean_and_prepare_data p (Some df) = Returns (Some out)
    ∧ apply_size_filter o out = Returns shown
    ∧ size_mapping !! o = Some label
    ∧ rows shown
      = List.filter
          (λ r, eq_str (fire_size_category (num_of (cell "TOTALACRES" r))) label)
          (rows out)
    ∧ Forall (λ r, ∃ x, cell "TOTALACRES" r = VNum x
                        ∧ (x = PInf ∨ ∃ q, x = Fin q ∧ (0 < q)%Q))
        (rows shown).
Proof.
  intros Hc HTA Ho Hne.
  destruct (size_option_label o Ho Hne) as (label & Hl & Hin).
  set (out := {| columns := columns_out df;
                 rows := row_out p df <$> List.filter (kept p df) (rows df) |}).
  assert (has_column "FIRE_SIZE_CATEGORY" out = true) as HFSC.
  { unfold has_column, out. cbn [columns]. apply bool_decide_eq_true.
    unfold columns_out. rewrite HTA. apply add_column_elem. }
  assert (List.filter (λ r, eq_str (cell "FIRE_SIZE_CATEGORY" r) label) (rows out)
          = List.filter
              (λ r, eq_str (fire_size_category (num_of (cell "TOTALACRES" r))) label)
              (rows out)) as Hrows.
  { apply filter_ext_in. intros r' Hr'.
    apply list_elem_of_In, list_elem_of_fmap in Hr' as (r & -> & _).
    by rewrite row_out_FIRE_SIZE_CATEGORY. }
  exists out, (select (λ r, eq_str (cell "FIRE_SIZE_CATEGORY" r) label) out), label.
  split; [by apply clean_returns|]. split; [|split; [done|split; [done|]]].
  - unfold apply_size_filter.
    by rewrite bool_decide_eq_false_2, HFSC, Hl by done.
  - cbn [select rows]. apply Forall_forall. intros r' Hr'.
    apply list_elem_of_In, filter_In in Hr' as [Hr' Heq].
    apply list_elem_of_In, list_elem_of_fmap in Hr' as (r & -> & _).
    rewrite row_out_FIRE_SIZE_CATEGORY, row_out_TOTALACRES in Heq by done.
    rewrite row_out_TOTALACRES by done. eexists. split; [done|].
    cbn [num_of] in Heq.
    destruct (fillna_zero (to_numeric p (cell "TOTALACRES" r))) as [q| | |] eqn:Hx.
    + right. exists q. split; [done|].
      rewrite fire_size_category_Fin in Heq.
      destruct (Qlt_le_dec 0 q); [done|discriminate Heq].
    + by left.
    + discriminate Heq.
    + discriminate Heq.
Qed.

Lemma size_filter_on_prepared_witness :
  ∃ out shown label,
    clean_and_prepare_data Reader.str_to_float (Some spec_example)
    = Returns (Some out)
    ∧ apply_size_filter "Small (<10 acres)" out = Returns shown
    ∧ size_mapping !! "Small (<10 acres)" = Some label
    ∧ rows shown
      = List.filter
          (λ r, eq_str (fire_size_category (num_of (cell "TOTALACRES" r))) label)
          (rows out)
    ∧ Forall (λ r, ∃ x, cell "TOTALACRES" r = VNum x
                        ∧ (x = PInf ∨ ∃ q, x = Fin q ∧ (0 < q)%Q))
        (rows shown).
Proof.
  apply (size_filter_on_prepared Reader.str_to_float spec_example "Small (<10 acres)").
  - vm_compute. reflexivity.
  - vm_compute. reflexivity.
  - unfold size_options. rewrite !elem_of_cons. auto 8.
  - discriminate.
Defined.

(** ** The spatial page: the year select box *)

Lemma unique_acc (l seen : list Z) :
  let f := λ (seen : list Z) (x : Z),
             if bool_decide (x ∈ seen) then seen else (seen ++ [x])%list in
  NoDup seen →
  NoDup (foldl f seen l) ∧ ∀ x, x ∈ foldl f seen l ↔ x ∈ seen ∨ x ∈ l.
Proof.
  intros f. revert seen. induction l as [|y l IH]; intros seen Hnd.
  - cbn. split; [done|]. intros x. rewrite elem_of_nil. tauto.
  - cbn [foldl]. unfold f at 2 4. case_bool_decide as Hy.
    + destruct (IH seen Hnd) as [H1 H2]. split; [done|].
      intros x. rewrite H2, elem_of_cons.
      split; [tauto|]. intros [?|[->|?]]; auto.
    + assert (NoDup (seen ++ [y])) as Hnd'.
      { apply NoDup_app. split; [done|]. split; [|apply NoDup_singleton].
        intros x Hx Hx'. by apply list_elem_of_singleton in Hx' as ->. }
      destruct (IH _ Hnd') as [H1 H2]. split; [done|].
      intros x. rewrite H2, elem_of_app, list_elem_of_singleton, elem_of_cons. tauto.
Qed.

Lemma NoDup_unique (l : list Z) : NoDup (unique l).
Proof. apply (unique_acc l []). constructor. Qed.

Lemma elem_of_unique (l : list Z) (x : Z) : x ∈ unique l ↔ x ∈ l.
Proof.
  destruct (unique_acc l [] (NoDup_nil_2)) as [_ H]. unfold unique.
  rewrite H, elem_of_nil. tauto.
Qed.

Lemma Sorted_lt_of_le (l : list Z) :
  StronglySorted Z.le l → NoDup l → Sorted Z.lt l.
Proof.
  induction 1 as [|x l Hs IH Hall]; intros Hnd; [constructor|].
  apply NoDup_cons in Hnd as [Hx Hnd]. constructor; [by apply IH|].
  destruct l as [|y l]; constructor.
  apply Forall_cons in Hall as [Hxy _].
  assert (x ≠ y) by (intros ->; apply Hx; by left). lia.
Qed.

Lemma mapM_fmap_Some {A B} (f : A → option B) (g : A → B) (l : list A) :
  (∀ x, x ∈ l → f x = Some (g x)) → mapM f l = Some (g <$> l).
Proof.
  intros H. apply mapM_Some, Forall2_fmap_r, Forall_Forall2_diag, Forall_forall.
  exact H.
Qed.

Lemma int_cell_inject_Z (z : Z) : int_cell (VNum (Fin (inject_Z z))) = Some z.
Proof. done. Qed.

(** On a prepared frame with a year column the year select box offers
    "All Years" followed by the years that occur among the records, each
    once, written in decimal, in increasing order. *)
Theorem year_options_prepared (p : string → option float64) (df : DataFrame) :
  castable p df = true →
  has_column "FIREYEAR" df = true →
  ∃ out years,
    clean_and_prepare_data p (Some df) = Returns (Some out)
    ∧ year_options out = Some ("All Years" :: (Py.str <$> years))
    ∧ Sorted Z.lt years
    ∧ ∀ z, z ∈ years
           ↔ ∃ r, r ∈ rows out ∧ cell "FIREYEAR" r = VNum (Fin (inject_Z z)).
Proof.
  intros Hc HFY.
  set (kept_rows := List.filter (kept p df) (rows df)).
  exists {| columns := columns_out df; rows := row_out p df <$> kept_rows |}.
  exists (merge_sort Z.le (unique (year_int p <$> kept_rows))).
  split; [by apply clean_returns|].
  assert (int_column "FIREYEAR"
            {| columns := columns_out df; rows := row_out p df <$> kept_rows |}
          = Some (year_int p <$> kept_rows)) as Hcol.
  { unfold int_column. cbn [rows].
    rewrite (mapM_fmap_Some _ (λ r', default 0%Z (int_cell (cell "FIREYEAR" r')))).
    - f_equal. rewrite <- list_fmap_compose. apply list_fmap_ext.
      intros _ r _. cbn. by rewrite row_out_FIREYEAR.
    - intros r' Hr'. apply list_elem_of_fmap in Hr' as (r & -> & _).
      by rewrite row_out_FIREYEAR. }
  split; [|split].
  - unfold year_options.
    assert (has_column "FIREYEAR"
              {| columns := columns_out df; rows := row_out p df <$> kept_rows |}
            = true) as ->.
    { unfold has_column in *. cbn [columns].
      apply bool_decide_eq_true, elem_of_columns_out; [done..|].
      by apply bool_decide_eq_true in HFY. }
    by rewrite Hcol.
  - apply Sorted_lt_of_le.
    + apply StronglySorted_merge_sort; apply _.
    + rewrite merge_sort_Permutation. apply NoDup_unique.
  - intros z. rewrite merge_sort_Permutation, elem_of_unique, list_elem_of_fmap.
    cbn [rows]. split.
    + intros (r & -> & Hr). exists (row_out p df r).
      split; [by apply list_elem_of_fmap_2|by apply row_out_FIREYEAR].
    + intros (r' & Hr' & Hz). apply list_elem_of_fmap in Hr' as (r & -> & Hr).
      exists r. split; [|done].
      rewrite row_out_FIREYEAR in Hz by done. injection Hz as Hz. done.
Qed.

Lemma year_options_prepared_witness :
  ∃ out years,
    clean_and_prepare_data Reader.str_to_float (Some spec_example)
    = Returns (Some out)
    ∧ year_options out = Some ("All Years" :: (Py.str <$> years))
    ∧ Sorted Z.lt years
    ∧ ∀ z, z ∈ years
           ↔ ∃ r, r ∈ rows out ∧ cell "FIREYEAR" r = VNum (Fin (inject_Z z)).
Proof.
  apply (year_options_prepared Reader.str_to_float spec_example);
    vm_compute; reflexivity.
Defined.

(** The box on a frame with the years 2021, 2019, 2021 and 2020. *)
Example year_options_example :
  year_options
    {| columns := ["FIREYEAR"];
       rows := [ {[ "FIREYEAR" := VNum (Fin 2021) ]};
                 {[ "FIREYEAR" := VNum (Fin 2019) ]};
                 {[ "FIREYEAR" := VNum (Fin 2021) ]};
                 {[ "FIREYEAR" := VNum (Fin 2020) ]} ] |}
  = Some ["All Years"; "2019"; "2020"; "2021"].
Proof. by vm_compute. Qed.

(** ** The spatial page: the year filter *)

Lemma str_not_all_years (y : Z) : Py.str y ≠ "All Years".
Proof.
  intros H. pose proof (int_str y) as Hy. rewrite H in Hy. by vm_compute in Hy.
Qed.

Lemma eq_int_inject_Z (z y : Z) :
  eq_int (VNum (Fin (inject_Z z))) y = true ↔ z = y.
Proof.
  cbn [eq_int]. rewrite Qeq_bool_iff. unfold Qeq. cbn. lia.
Qed.

(** A year offered by the select box is read back by [int]: choosing
    [str(y)] shows no error and keeps the records whose year equals [y],
    which on an integer year column are exactly the records of year
    [y]. *)
Theorem apply_year_filter_offered (df : DataFrame) (y : Z) :
  has_column "FIREYEAR" df = true →
  apply_year_filter (Py.str y) df
  = (select (λ r, eq_int (cell "FIREYEAR" r) y) df, None)
  ∧ ∀ r z, cell "FIREYEAR" r = VNum (Fin (inject_Z z)) →
           (eq_int (cell "FIREYEAR" r) y = true ↔ z = y).
Proof.
  intros HFY. split.
  - unfold apply_year_filter.
    rewrite bool_decide_eq_false_2 by apply str_not_all_years.
    by rewrite HFY, int_str.
  - intros r z ->. apply eq_int_inject_Z.
Qed.

Lemma apply_year_filter_offered_witness :
  apply_year_filter (Py.str 2020) three_rows
  = (select (λ r, eq_int (cell "FIREYEAR" r) 2020) three_rows, None)
  ∧ ∀ r z, cell "FIREYEAR" r = VNum (Fin (inject_Z z)) →
           (eq_int (cell "FIREYEAR" r) 2020 = true ↔ z = 2020%Z).
Proof.
  apply (apply_year_filter_offered three_rows 2020). vm_compute. reflexivity.
Defined.

(** The year filter on the three-record frame: an offered year, and a
    text [int] cannot read. *)
Example apply_year_filter_examples :
  apply_year_filter "2020" three_rows
  = ({| columns := ["FIREYEAR"]; rows := [ {[ "FIREYEAR" := VNum (Fin 2020) ]} ] |},
     None)
  ∧ apply_year_filter "20x0" three_rows
    = (three_rows, Some "Invalid year format: 20x0").
Proof. split; by vm_compute. Qed.

(** ** The spatial page: what reaches the map *)

Lemma select_rows_subset (mask : gmap string value → bool) (df : DataFrame) :
  rows (select mask df) ⊆ rows df ∧ (length (rows (select mask df)) ≤ length (rows df))%nat.
Proof.
  cbn [select rows]. split.
  - intros r Hr. apply list_elem_of_In, filter_In in Hr as [Hr _].
    by apply list_elem_of_In.
  - apply filter_length_le.
Qed.

Section SpatialProperties.

Variable rng : Type.
Variable RandomState : Z → rng.
Variable choice : rng → nat → nat → list nat * rng.

Hypothesis choice_length :
  ∀ g len n, (n ≤ len)%nat → length (choice g len n).1 = n.
Hypothesis choice_range :
  ∀ g len n, (n ≤ len)%nat → Forall (λ i, (i < len)%nat) (choice g len n).1.

Lemma sample_for_map_rows (n : nat) (df : DataFrame) :
  ∃ out,
    (∀ global', sample_for_map rng RandomState choice n global' df
                = (Returns out, global'))
    ∧ columns out = columns df
    ∧ rows out ⊆ rows df
    ∧ length (rows out) = Nat.min n (length (rows df)).
Proof.
  unfold sample_for_map, sample.
  destruct (n <? length (rows df))%nat eqn:Hlt.
  - apply Nat.ltb_lt in Hlt.
    destruct (take_rows_returns (choice (RandomState 42) (length (rows df)) n).1 df)
      as (out & Hout & Hcols & Hrows); [apply choice_range; lia|].
    exists out. rewrite Hout. split; [done|]. split; [done|]. split.
    + intros r Hr. apply list_elem_of_lookup in Hr as [i Hi].
      destruct (Forall2_lookup_r _ _ _ _ _ Hrows Hi) as (j & _ & Hj).
      by apply list_elem_of_lookup_2 in Hj.
    + apply Forall2_length in Hrows. rewrite <- Hrows, choice_length; lia.
  - apply Nat.ltb_ge in Hlt. exists df. repeat split; try done. lia.
Qed.

Lemma offered_year_no_error (year_filter : string) (df : DataFrame) :
  year_filter = "All Years" ∨ (∃ y : Z, year_filter = Py.str y) →
  (apply_year_filter year_filter df).2 = None
  ∧ columns (apply_year_filter year_filter df).1 = columns df
  ∧ rows (apply_year_filter year_filter df).1 ⊆ rows df.
Proof.
  intros [-> | [y ->]]; unfold apply_year_filter.
  - by rewrite bool_decide_eq_true_2.
  - rewrite bool_decide_eq_false_2 by apply str_not_all_years. cbn [negb andb].
    destruct (has_column "FIREYEAR" df); [|done]. rewrite int_str.
    cbn [fst snd]. split; [done|]. split; [done|]. apply select_rows_subset.
Qed.

Lemma assign_checked_Some (c : string) (f : gmap string value → option value)
    (g : gmap string value → value) (df : DataFrame) :
  (∀ r, r ∈ rows df → f r = Some (g r)) →
  assign_checked c f df = Some (assign c g df).
Proof.
  intros H. unfold assign_checked, assign.
  rewrite (mapM_fmap_Some _ (λ r, <[c := g r]> r)); [done|].
  intros r Hr. by rewrite H.
Qed.

Lemma add_map_columns_returns (df : DataFrame) :
  (has_column "TOTALACRES" df = true →
   has_column "geometry" df = true
   ∧ Forall (λ r, is_number (cell "TOTALACRES" r) = true
                  ∧ is_point_or_none (cell "geometry" r) = true) (rows df)) →
  ∃ mapped,
    add_map_columns df = Returns mapped
    ∧ rows mapped
      = (if has_column "TOTALACRES" df
         then (λ r, <["LON" := default (VNum NaN) (lon_cell (cell "geometry" r))]>
                      (<["LAT" := default (VNum NaN) (lat_cell (cell "geometry" r))]>
                         (<["SIZE_CATEGORY" := size_cell r]> r)))
              <$> rows df
         else rows df).
Proof.
  intros Hok. unfold add_map_columns.
  destruct (has_column "TOTALACRES" df); [|by exists df].
  destruct Hok as [Hgeo Hall]; [done|]. rewrite Forall_forall in Hall.
  rewrite (assign_checked_Some _ _ size_cell).
  2:{ intros r Hr. destruct (Hall r Hr) as [Hnum _]. unfold size_cell.
      by destruct (cell "TOTALACRES" r). }
  assert (has_column "geometry" (assign "SIZE_CATEGORY" size_cell df) = true) as ->.
  { unfold has_column at 1. unfold assign. cbn [columns]. unfold has_column in *.
    apply bool_decide_eq_true. apply bool_decide_eq_true in Hgeo.
    destruct (bool_decide ("SIZE_CATEGORY" ∈ columns df)); [done|].
    apply elem_of_app. by left. }
  cbn [negb].
  rewrite (assign_checked_Some _ _
             (λ r, default (VNum NaN) (lat_cell (cell "geometry" r)))).
  2:{ intros r' Hr'. cbn [assign rows] in Hr'.
      apply list_elem_of_fmap in Hr' as (r & -> & Hr). cells.
      destruct (Hall r Hr) as [_ Hpt]. by destruct (cell "geometry" r). }
  rewrite (assign_checked_Some _ _
             (λ r, default (VNum NaN) (lon_cell (cell "geometry" r)))).
  2:{ intros r' Hr'. cbn [assign rows] in Hr'.
      apply list_elem_of_fmap in Hr' as (r1 & -> & Hr1).
      apply list_elem_of_fmap in Hr1 as (r & -> & Hr). cells.
      destruct (Hall r Hr) as [_ Hpt]. by destruct (cell "geometry" r). }
  eexists. split; [done|]. cbn [assign rows].
  rewrite <- !list_fmap_compose. apply list_fmap_ext. intros _ r _. cbn.
  by cells.
Qed.

(** For an offered size choice and an offered year choice, on a frame
    whose acreage cells are numbers and whose geometry column holds
    points or nothing, the spatial page gets its map data without raising,
    without a year error and without touching the process-wide
    generator: the records that pass the size filter and then the year
    filter, all of them when they are at most [sample_size] and
    [sample_size] of them otherwise, with the map columns added.  In
    particular the map never shows more than [sample_size] records, and
    none that is not in the frame. *)
Theorem spatial_map_data_shown (sample_size : nat) (size_filter year_filter : string)
    (df : DataFrame) :
  size_filter ∈ size_options →
  year_filter = "All Years" ∨ (∃ y : Z, year_filter = Py.str y) →
  (has_column "TOTALACRES" df = true →
   has_column "geometry" df = true
   ∧ Forall (λ r, is_number (cell "TOTALACRES" r) = true
                  ∧ is_point_or_none (cell "geometry" r) = true) (rows df)) →
  ∃ by_size sampled mapped,
    apply_size_filter size_filter df = Returns by_size
    ∧ add_map_columns sampled = Returns mapped
    ∧ (∀ global',
         spatial_map_data rng RandomState choice sample_size size_filter
           year_filter global' df
         = (Returns (mapped, None), global'))
    ∧ rows sampled ⊆ rows (apply_year_filter year_filter by_size).1
    ∧ rows sampled ⊆ rows df
    ∧ length (rows sampled)
      = Nat.min sample_size (length (rows (apply_year_filter year_filter by_size).1))
    ∧ length (rows mapped) = length (rows sampled)
    ∧ (length (rows mapped) ≤ sample_size)%nat.
Proof.
  intros Ho Hyear Hok.
  assert (∃ by_size, apply_size_filter size_filter df = Returns by_size
                     ∧ columns by_size = columns df
                     ∧ rows by_size ⊆ rows df) as (by_size & Hsize & Hcols & Hsub).
  { unfold apply_size_filter.
    destruct (negb (bool_decide (size_filter = "All Fires"))
              && has_column "FIRE_SIZE_CATEGORY" df) eqn:Hcond; [|by exists df].
    apply andb_true_iff in Hcond as [Hne _].
    apply negb_true_iff, bool_decide_eq_false in Hne.
    destruct (size_option_label size_filter Ho Hne) as (label & -> & _).
    eexists. split; [done|]. split; [done|]. apply select_rows_subset. }
  destruct (offered_year_no_error year_filter by_size Hyear)
    as (Herr & Hcols' & Hsub').
  destruct (sample_for_map_rows sample_size
              (apply_year_filter year_filter by_size).1)
    as (sampled & Hsample & Hcols'' & Hsub'' & Hlen).
  assert (rows sampled ⊆ rows df) as Hin.
  { intros r Hr. by apply Hsub, Hsub', Hsub''. }
  assert (has_column "TOTALACRES" sampled = has_column "TOTALACRES" df
          ∧ has_column "geometry" sampled = has_column "geometry" df)
    as [HTA Hgeo].
  { unfold has_column. by rewrite Hcols'', Hcols', Hcols. }
  destruct (add_map_columns_returns sampled) as (mapped & Hmap & Hrows).
  { rewrite HTA, Hgeo. intros H. destruct (Hok H) as [? Hall]. split; [done|].
    rewrite Forall_forall in Hall. apply Forall_forall. intros r Hr.
    by apply Hall, Hin. }
  assert (length (rows mapped) = length (rows sampled)) as Hadd.
  { rewrite Hrows. destruct (has_column "TOTALACRES" sampled); [|done].
    by rewrite length_fmap. }
  exists by_size, sampled, mapped. split; [done|]. split; [done|].
  split; [|split; [done|split; [done|split; [done|split; [done|]]]]].
  - intros global'. unfold spatial_map_data. rewrite Hsize.
    destruct (apply_year_filter year_filter by_size) as [by_year shown_error].
    cbn [fst snd] in *. by rewrite Hsample, Hmap, Herr.
  - rewrite Hadd, Hlen. lia.
Qed.

End SpatialProperties.

Lemma spatial_map_data_shown_witness :
  ∃ by_size sampled mapped,
    apply_size_filter "Mega (>10000)" map_example = Returns by_size
    ∧ add_map_columns sampled = Returns mapped
    ∧ (∀ global',
         spatial_map_data unit (λ _, ()) first_positions 1 "Mega (>10000)"
           "2020" global' map_example
         = (Returns (mapped, None), global'))
    ∧ rows sampled ⊆ rows (apply_year_filter "2020" by_size).1
    ∧ rows sampled ⊆ rows map_example
    ∧ length (rows sampled)
      = Nat.min 1 (length (rows (apply_year_filter "2020" by_size).1))
    ∧ length (rows mapped) = length (rows sampled)
    ∧ (length (rows mapped) ≤ 1)%nat.
Proof.
  apply (spatial_map_data_shown unit (λ _, ()) first_positions
           first_positions_length first_positions_range
           1 "Mega (>10000)" "2020" map_example).
  - unfold size_options. rewrite !elem_of_cons. auto 8.
  - right. exists 2020%Z. vm_compute. reflexivity.
  - intros _. split; [vm_compute; reflexivity|].
    unfold map_example. cbn [rows]. repeat constructor; vm_compute; reflexivity.
Defined.

(** The map data of the four-record frame for the mega fires of 2020,
    one point asked for: two records pass the filters and the first is
    drawn.  On a frame that has an acreage but no geometry column the
    page raises. *)
Example spatial_map_data_examples :
  spatial_map_data unit (λ _, ()) first_positions 1 "Mega (>10000)" "2020" ()
    map_example
  = (Returns
       ({| columns := ["TOTALACRES"; "FIREYEAR"; "geometry"; "FIRE_SIZE_CATEGORY";
                        "SIZE_CATEGORY"; "LAT"; "LON"];
           rows := [ {[ "TOTALACRES" := VNum (Fin 20000);
                        "FIREYEAR" := VNum (Fin 2020);
                        "geometry" := VPoint (-114) 45;
                        "FIRE_SIZE_CATEGORY" := VStr Mega;
                        "SIZE_CATEGORY" := VStr Mega;
                        "LAT" := VNum (Fin 45);
                        "LON" := VNum (Fin (-114)) ]} ] |}, None), ())
  ∧ spatial_map_data unit (λ _, ()) first_positions 5 "All Fires" "All Years" ()
      {| columns := ["TOTALACRES"]; rows := [ {[ "TOTALACRES" := VNum (Fin 5) ]} ] |}
    = (Raises "AttributeError", ()).
Proof. split; by vm_compute. Qed.

(** The size category computed again for the map is the one the
    pipeline stored: on every selection of records of a prepared frame
    whose geometries are points or missing, the map columns are added
    without raising, the column SIZE_CATEGORY equals FIRE_SIZE_CATEGORY,
    LAT and LON are the second and the first coordinate of the point, and
    every other cell is as it was. *)
Theorem map_size_category_agrees (p : string → option float64) (df : DataFrame) :
  castable p df = true →
  has_column "TOTALACRES" df = true →
  has_column "geometry" df = true →
  Forall (λ r, is_point_or_none (cell "geometry" r) = true) (rows df) →
  ∃ out,
    clean_and_prepare_data p (Some df) = Returns (Some out)
    ∧ ∀ shown, shown ⊆ rows out →
        ∃ mapped,
          add_map_columns {| columns := columns out; rows := shown |}
          = Returns mapped
          ∧ Forall2 (λ r r',
               cell "SIZE_CATEGORY" r' = cell "FIRE_SIZE_CATEGORY" r
               ∧ (∀ lon lat, cell "geometry" r = VPoint lon lat →
                    cell "LAT" r' = VNum (Fin lat)
                    ∧ cell "LON" r' = VNum (Fin lon))
               ∧ ∀ c, c ∉ ["SIZE_CATEGORY"; "LAT"; "LON"] → r' !! c = r !! c)
              shown (rows mapped).
Proof.
  intros Hc HTA Hgeo Hpoints. eexists. split; [by apply clean_returns|].
  cbn [columns rows]. intros shown Hshown.
  assert (has_column "TOTALACRES" {| columns := columns_out df; rows := shown |}
          = true) as HTA'.
  { unfold has_column in *. cbn [columns].
    apply bool_decide_eq_true, elem_of_columns_out; [done..|].
    by apply bool_decide_eq_true in HTA. }
  assert (has_column "geometry" {| columns := columns_out df; rows := shown |}
          = true) as Hgeo'.
  { unfold has_column in *. cbn [columns].
    apply bool_decide_eq_true, elem_of_columns_out; [done..|].
    by apply bool_decide_eq_true in Hgeo. }
  assert (∀ r', r' ∈ shown →
            ∃ r, r ∈ rows df ∧ r' = row_out p df r) as Hfrom.
  { intros r' Hr'. apply Hshown, list_elem_of_fmap in Hr' as (r & -> & Hr).
    exists r. split; [|done].
    apply list_elem_of_In, filter_In in Hr as [Hr _]. by apply list_elem_of_In. }
  assert (∀ r, cell "geometry" (row_out p df r) = cell "geometry" r) as Hsame.
  { intros r. unfold cell. rewrite !lookup_total_alt.
    by rewrite row_out_lookup_other. }
  destruct (add_map_columns_returns {| columns := columns_out df; rows := shown |})
    as (mapped & Hmap & Hrows).
  { intros _. split; [done|]. cbn [rows]. apply Forall_forall. intros r' Hr'.
    destruct (Hfrom r' Hr') as (r & Hr & ->). split.
    - by rewrite row_out_TOTALACRES.
    - rewrite Hsame. rewrite Forall_forall in Hpoints. by apply Hpoints. }
  exists mapped. split; [done|]. rewrite Hrows, HTA'. cbn [rows].
  apply Forall2_fmap_r, Forall_Forall2_diag, Forall_forall.
  intros r' Hr'. destruct (Hfrom r' Hr') as (r & Hr & ->).
  split; [|split].
  - cells. unfold size_cell. by rewrite row_out_FIRE_SIZE_CATEGORY.
  - intros lon lat Hpt. cells. by rewrite Hpt.
  - intros c Hnot. rewrite !not_elem_of_cons in Hnot.
    destruct Hnot as (H1 & H2 & H3 & _).
    by rewrite !lookup_insert_ne.
Qed.

Lemma map_size_category_agrees_witness :
  ∃ out,
    clean_and_prepare_data Reader.str_to_float (Some geo_example)
    = Returns (Some out)
    ∧ ∀ shown, shown ⊆ rows out →
        ∃ mapped,
          add_map_columns {| columns := columns out; rows := shown |}
          = Returns mapped
          ∧ Forall2 (λ r r',
               cell "SIZE_CATEGORY" r' = cell "FIRE_SIZE_CATEGORY" r
               ∧ (∀ lon lat, cell "geometry" r = VPoint lon lat →
                    cell "LAT" r' = VNum (Fin lat)
                    ∧ cell "LON" r' = VNum (Fin lon))
               ∧ ∀ c, c ∉ ["SIZE_CATEGORY"; "LAT"; "LON"] → r' !! c = r !! c)
              shown (rows mapped).
Proof.
  apply (map_size_category_agrees Reader.str_to_float geo_example).
  - vm_compute. reflexivity.
  - vm_compute. reflexivity.
  - vm_compute. reflexivity.
  - unfold geo_example. cbn [rows]. repeat constructor; vm_compute; reflexivity.
Defined.

(** The map columns of the prepared geometry example. *)
Example map_size_category_example :
  ∃ out,
    clean_and_prepare_data Reader.str_to_float (Some geo_example)
    = Returns (Some out)
    ∧ add_map_columns out
      = Returns
          {| columns := ["TOTALACRES"; "FIREYEAR"; "geometry"; "FIRE_SIZE_CATEGORY";
                         "SIZE_CATEGORY"; "LAT"; "LON"];
             rows := [ {[ "TOTALACRES" := VNum (Fin 20000);
                          "FIREYEAR" := VNum (Fin 2020);
                          "geometry" := VPoint (-114) 45;
                          "FIRE_SIZE_CATEGORY" := VStr Mega;
                          "SIZE_CATEGORY" := VStr Mega;
                          "LAT" := VNum (Fin 45);
                          "LON" := VNum (Fin (-114)) ]};
                       {[ "TOTALACRES" := VNum (Fin 5);
                          "FIREYEAR" := VNum (Fin 2020);
                          "geometry" := VNone;
                          "FIRE_SIZE_CATEGORY" := VStr Small;
                          "SIZE_CATEGORY" := VStr Small;
                          "LAT" := VNum NaN;
                          "LON" := VNum NaN ]} ] |}.
Proof.
  eexists. split; [vm_compute; reflexivity|]. vm_compute. reflexivity.
Qed.

(** ** [main] and the loader *)


Example main_examples :
  main Reader.str_to_float None "Advanced Overview" = Returns FailedToLoad
  ∧ main Reader.str_to_float (Some spec_example) "Advanced Spatial Analysis"
    = Returns (AdvancedSpatialAnalysis spec_example_out)
  ∧ main Reader.str_to_float
      (Some (frame3 (VNum (Fin 3)) (VStr "-inf") VNone)) "Advanced Overview"
    = Raises "IntCastingNaNError".
Proof. repeat split; by vm_compute. Qed.

(** On an empty cache the loader returns a frame exactly when the four
    secrets are there, the download succeeds and the downloaded bytes are
    read as a frame; it has then announced the download and reported the
    number of records of that frame, and the frame is what the cache
    holds afterwards.  On a filled cache it returns what the cache holds
    and leaves the cache as it is, whatever the secrets and the bucket
    are. *)
Theorem load_wildfire_data_succeeds_iff
    (secrets : gmap string string) (key_error : string → string)
    (get_object : string → string → string → string → outcome string)
    (read_file : string → outcome DataFrame)
    (replay : list load_message → list load_message)
    (gdf : DataFrame) (shown : list load_message)
    (cache' : option (option DataFrame * list load_message)) :
  (load_wildfire_data secrets key_error get_object read_file replay None
   = ((Some gdf, shown), cache')
   ↔ ∃ id key bucket path data,
       secrets !! "AWS_ACCESS_KEY_ID" = Some id
       ∧ secrets !! "AWS_SECRET_ACCESS_KEY" = Some key
       ∧ secrets !! "S3_BUCKET_NAME" = Some bucket
       ∧ secrets !! "S3_OBJECT_KEY" = Some path
       ∧ get_object id key bucket path = Returns data
       ∧ read_file data = Returns gdf
       ∧ shown = [LoadingInfo; LoadedSuccess (length (rows gdf))]
       ∧ cache' = Some (Some gdf, shown))
  ∧ (∀ cached was_shown,
       load_wildfire_data secrets key_error get_object read_file replay
         (Some (cached, was_shown))
       = ((cached, replay was_shown), Some (cached, was_shown))).
Proof.
  split; [|done].
  unfold load_wildfire_data, load_uncached, load_body, secret. split.
  - destruct (secrets !! "AWS_ACCESS_KEY_ID") as [id|]; [|discriminate].
    destruct (secrets !! "AWS_SECRET_ACCESS_KEY") as [key|]; [|discriminate].
    destruct (secrets !! "S3_BUCKET_NAME") as [bucket|]; [|discriminate].
    destruct (secrets !! "S3_OBJECT_KEY") as [path|]; [|discriminate].
    destruct (get_object id key bucket path) as [data|e] eqn:Hget; [|discriminate].
    destruct (read_file data) as [gdf'|e] eqn:Hread; [|discriminate].
    intros [= <- <- <-]. by exists id, key, bucket, path, data.
  - intros (id & key & bucket & path & data
            & -> & -> & -> & -> & Hget & Hread & -> & ->).
    by rewrite Hget, Hread.
Qed.

(** When one of the four secrets is missing and the cache is empty, the
    loader returns nothing and shows one message, the failure naming a
    missing secret; it has not announced a download, and what the bucket
    would have answered plays no part.  That failure is what the cache
    holds afterwards: every later call returns nothing again, whatever
    the secrets and the bucket have become. *)
Theorem load_wildfire_data_missing_secret
    (secrets : gmap string string) (key_error : string → string)
    (replay : list load_message → list load_message) (k : string) :
  k ∈ required_secrets →
  secrets !! k = None →
  ∃ k', k' ∈ required_secrets
        ∧ secrets !! k' = None
        ∧ ∀ get_object read_file,
            load_wildfire_data secrets key_error get_object read_file replay None
            = ((None, [LoadFailed (key_error k')]),
               Some (None, [LoadFailed (key_error k')]))
            ∧ ∀ secrets' key_error' get_object' read_file',
                load_wildfire_data secrets' key_error' get_object' read_file' replay
                  (Some (None, [LoadFailed (key_error k')]))
                = ((None, replay [LoadFailed (key_error k')]),
                   Some (None, [LoadFailed (key_error k')])).
Proof.
  intros Hk Hmiss.
  unfold load_wildfire_data, load_uncached, load_body, secret, required_secrets in *.
  destruct (secrets !! "AWS_ACCESS_KEY_ID") as [id|] eqn:H1.
  2:{ exists "AWS_ACCESS_KEY_ID". rewrite !elem_of_cons. auto. }
  destruct (secrets !! "AWS_SECRET_ACCESS_KEY") as [key|] eqn:H2.
  2:{ exists "AWS_SECRET_ACCESS_KEY". rewrite !elem_of_cons. auto. }
  destruct (secrets !! "S3_BUCKET_NAME") as [bucket|] eqn:H3.
  2:{ exists "S3_BUCKET_NAME". rewrite !elem_of_cons. auto. }
  destruct (secrets !! "S3_OBJECT_KEY") as [path|] eqn:H4.
  2:{ exists "S3_OBJECT_KEY". rewrite !elem_of_cons. auto 6. }
  exfalso.
  repeat (apply elem_of_cons in Hk as [->|Hk]; [congruence|]).
  by apply elem_of_nil in Hk.
Qed.

Lemma load_wildfire_data_missing_secret_witness :
  ∃ k', k' ∈ required_secrets
        ∧ ({[ "AWS_ACCESS_KEY_ID" := "id"; "S3_BUCKET_NAME" := "fires" ]}
             : gmap string string) !! k' = None
        ∧ ∀ get_object read_file,
            load_wildfire_data
              {[ "AWS_ACCESS_KEY_ID" := "id"; "S3_BUCKET_NAME" := "fires" ]}
              (λ k, "no key " +:+ k) get_object read_file (λ shown, shown) None
            = ((None, [LoadFailed ((λ k, "no key " +:+ k) k')]),
               Some (None, [LoadFailed ((λ k, "no key " +:+ k) k')]))
            ∧ ∀ secrets' key_error' get_object' read_file',
                load_wildfire_data secrets' key_error' get_object' read_file'
                  (λ shown, shown)
                  (Some (None, [LoadFailed ((λ k, "no key " +:+ k) k')]))
                = ((None, (λ shown, shown) [LoadFailed ((λ k, "no key " +:+ k) k')]),
                   Some (None, [LoadFailed ((λ k, "no key " +:+ k) k')])).
Proof.
  apply (load_wildfire_data_missing_secret
           {[ "AWS_ACCESS_KEY_ID" := "id"; "S3_BUCKET_NAME" := "fires" ]}
           (λ k, "no key " +:+ k) (λ shown, shown) "S3_OBJECT_KEY").
  - unfold required_secrets. rewrite !elem_of_cons. auto 6.
  - vm_compute. reflexivity.
Defined.

(** The loader on an empty cache with a secret missing, with a download
    that fails, and with everything in order; and on the cache the failed
    download left, with the bucket answering again. *)
Example load_wildfire_data_examples :
  load_wildfire_data
    {[ "AWS_ACCESS_KEY_ID" := "id"; "S3_BUCKET_NAME" := "fires" ]}
    (λ k, "no key " +:+ k) (λ _ _ _ _, Returns "{}") (λ _, Returns three_rows)
    (λ shown, shown) None
  = ((None, [LoadFailed "no key AWS_SECRET_ACCESS_KEY"]),
     Some (None, [LoadFailed "no key AWS_SECRET_ACCESS_KEY"]))
  ∧ load_wildfire_data
      {[ "AWS_ACCESS_KEY_ID" := "id"; "AWS_SECRET_ACCESS_KEY" := "key";
         "S3_BUCKET_NAME" := "fires"; "S3_OBJECT_KEY" := "fires.geojson" ]}
      (λ k, "no key " +:+ k) (λ _ _ _ _, Raises "AccessDenied")
      (λ _, Returns three_rows) (λ shown, shown) None
    = ((None, [LoadingInfo; LoadFailed "AccessDenied"]),
       Some (None, [LoadingInfo; LoadFailed "AccessDenied"]))
  ∧ load_wildfire_data
      {[ "AWS_ACCESS_KEY_ID" := "id"; "AWS_SECRET_ACCESS_KEY" := "key";
         "S3_BUCKET_NAME" := "fires"; "S3_OBJECT_KEY" := "fires.geojson" ]}
      (λ k, "no key " +:+ k) (λ _ _ _ _, Returns "{}") (λ _, Returns three_rows)
      (λ shown, shown) None
    = ((Some three_rows, [LoadingInfo; LoadedSuccess 3]),
       Some (Some three_rows, [LoadingInfo; LoadedSuccess 3]))
  ∧ load_wildfire_data
      {[ "AWS_ACCESS_KEY_ID" := "id"; "AWS_SECRET_ACCESS_KEY" := "key";
         "S3_BUCKET_NAME" := "fires"; "S3_OBJECT_KEY" := "fires.geojson" ]}
      (λ k, "no key " +:+ k) (λ _ _ _ _, Returns "{}") (λ _, Returns three_rows)
      (λ shown, shown) (Some (None, [LoadingInfo; LoadFailed "AccessDenied"]))
    = ((None, [LoadingInfo; LoadFailed "AccessDenied"]),
       Some (None, [LoadingInfo; LoadFailed "AccessDenied"])).
Proof. repeat split; vm_compute; reflexivity. Qed.
